(** * Fitness-tracker file parsing: TCX and GPX extraction pipelines

    A shallow embedding of [parse_tcx.py] and [parse_gpx.py].

    The two scripts walk an XML tree (lxml for TCX, gpxpy for GPX), read
    named children and attributes, coerce their text with [float], [int],
    [dateutil.parser.parse] and [timedelta], collect one Python dict per lap
    or track point, and hand the list of dicts to [pandas.DataFrame] with a
    declared column list.

    - XML elements are a concrete tree; [find] and [findall] follow
      lxml's ElementPath for the two path shapes the scripts use
      ([prefix:Name] among the children, [.//prefix:Name] among all
      descendants), on tags in Clark notation.
    - Python exceptions are an error monad [exc].
    - Python dicts are [gmap string pyval].
    - The builtin coercions are an interface ([Coercions]): the scripts do
      not define them, and no property below depends on more than whether
      a coercion accepts its argument.
    - A DataFrame is its index, its column labels and its rows of cells. *)

From Stdlib Require Import ZArith Ascii String.
From stdpp Require Import base option list strings gmap fin_maps.

Local Open Scope string_scope.
Local Open Scope Z_scope.
Local Open Scope list_scope.

(** ** Python exceptions and the error monad *)

Inductive exn : Set :=
| AttributeError   (* [None.text], [None.find], [None.findall] *)
| TypeError        (* [float(None)], [int(None)], [None[0]] *)
| ValueError       (* a coercion rejects its text *)
| KeyError         (* a missing attribute or column label *)
| IndexError       (* [seq[0]] on an empty sequence *)
| OverflowError
| IOError          (* the file cannot be opened *)
| ParseError.      (* the file is not a document of the expected kind *)

Definition exc (A : Type) : Type := exn + A.

Definition ret {A} (a : A) : exc A := inr a.
Definition raise {A} (e : exn) : exc A := inl e.
Definition bind {A B} (m : exc A) (k : A -> exc B) : exc B :=
  match m with
  | inl e => inl e
  | inr a => k a
  end.

Notation "'do' x <- m ; k" := (bind m (fun x => k))
  (at level 10, x name, m at level 100, k at level 200).

(** The run yields a value. *)
Definition returns {A} (m : exc A) : bool :=
  match m with
  | inl _ => false
  | inr _ => true
  end.

(** A [for] loop whose body may raise, threading the loop state. *)
Fixpoint for_each {S A} (body : S -> A -> exc S) (xs : list A) (s : S) : exc S :=
  match xs with
  | [] => ret s
  | x :: xs' => do s' <- body s x; for_each body xs' s'
  end.

(** A list comprehension whose element expression may raise. *)
Fixpoint comprehension {A B} (f : A -> exc B) (xs : list A) : exc (list B) :=
  match xs with
  | [] => ret []
  | x :: xs' => do y <- f x; do ys <- comprehension f xs'; ret (y :: ys)
  end.

(** [seq[0]] on a Python list. *)
Definition first_item {A} (xs : list A) : exc A :=
  match xs with
  | [] => raise IndexError
  | x :: _ => ret x
  end.

(** ** XML elements (lxml.etree._Element) *)

#[warnings="-register-all"] Inductive Element : Type :=
  Elem { tag : string;                    (* Clark notation: {uri}Local *)
         attrib : gmap string string;
         text : option string;            (* [None] when the element has no text *)
         children : list Element }.

(** All proper descendants, in document order. *)
Fixpoint descendants (e : Element) : list Element :=
  match e with
  | Elem _ _ _ cs =>
      (fix walk (l : list Element) : list Element :=
         match l with
         | [] => []
         | c :: l' => c :: descendants c ++ walk l'
         end) cs
  end.

Fixpoint assoc (k : string) (l : list (string * string)) : option string :=
  match l with
  | [] => None
  | (k', v) :: l' => if String.eqb k k' then Some v else assoc k l'
  end.

Fixpoint split_prefix (acc s : string) : option (string * string) :=
  match s with
  | EmptyString => None
  | String c s' =>
      if Ascii.eqb c ":"%char then Some (acc, s')
      else split_prefix (acc +:+ String c EmptyString) s'
  end.

(** [prefix:Local] to [{uri}Local] under a prefix map. A name without a
    prefix, or with a prefix the map lacks, is left as it is. *)
Definition clark (namespaces : list (string * string)) (name : string) : string :=
  match split_prefix "" name with
  | Some (p, local) =>
      match assoc p namespaces with
      | Some uri => "{" +:+ uri +:+ "}" +:+ local
      | None => name
      end
  | None => name
  end.

Definition strip_any_depth (path : string) : option string :=
  match path with
  | String "." (String "/" (String "/" rest)) => Some rest
  | _ => None
  end.

(** The elements a path selects below [e], in document order. *)
Definition findall (path : string) (namespaces : list (string * string))
    (e : Element) : list Element :=
  match strip_any_depth path with
  | Some name => filter (fun c => tag c = clark namespaces name) (descendants e)
  | None => filter (fun c => tag c = clark namespaces path) (children e)
  end.

(** [e.find(path, namespaces)]: the first selected element, or [None]. *)
Definition find (path : string) (namespaces : list (string * string))
    (e : Element) : option Element :=
  head (findall path namespaces e).

(** Attribute access on the result of a [find]: on [None] it raises. *)
Definition text_of (r : option Element) : exc (option string) :=
  match r with
  | Some e => ret (text e)
  | None => raise AttributeError
  end.

Definition findall_in (path : string) (namespaces : list (string * string))
    (r : option Element) : exc (list Element) :=
  match r with
  | Some e => ret (findall path namespaces e)
  | None => raise AttributeError
  end.

(** [elem.attrib[key]] *)
Definition attrib_item (e : Element) (key : string) : exc string :=
  match attrib e !! key with
  | Some v => ret v
  | None => raise KeyError
  end.

(** [r[0]] where [r] is the result of a [find]: the first child. *)
Definition first_child (r : option Element) : exc Element :=
  match r with
  | Some e => first_item (children e)
  | None => raise TypeError
  end.

(** *** Conditions on the result of a [find]

    [accepted conv r]: the element is there, has text, and the coercion
    takes the text. [if_present p r]: nothing is there, or [p] holds. *)
Definition accepted {A} (conv : string -> option A) (r : option Element) : bool :=
  match r with
  | Some e =>
      match text e with
      | Some s => match conv s with Some _ => true | None => false end
      | None => false
      end
  | None => false
  end.

Definition if_present (p : option Element -> bool) (r : option Element) : bool :=
  match r with
  | Some _ => p r
  | None => true
  end.

Definition present (r : option Element) : bool :=
  match r with
  | Some _ => true
  | None => false
  end.

(** ** Coercions of the Python runtime and its libraries *)

Class Coercions : Type := {
  float_t : Type;
  datetime_t : Type;
  timedelta_t : Type;
  (** [float(s)], [int(s)], [dateutil.parser.parse(s)] on a string:
      [None] when the text is rejected *)
  float_of_string : string -> option float_t;
  int_of_string : string -> option Z;
  datetime_of_string : string -> option datetime_t;
  (** what [dateutil.parser.parse] raises on a text it does not parse: its
      [ParserError] (a [ValueError]) or [OverflowError] *)
  datetime_error : string -> exn;
  (** [timedelta(seconds=x)]: rejects NaN and values out of range *)
  timedelta_of_seconds : float_t -> exc timedelta_t;
  (** the float is NaN, which [float] returns for the text [nan] *)
  float_is_nan : float_t -> bool;
}.

Section Values.
Context `{Coercions}.

(** Values stored in the records and in the cells of a table. [PNone] is
    Python's [None], the cell of a missing key. pandas counts it as null,
    and a float cell holding NaN as well: see [is_null]. *)
Inductive pyval : Type :=
| PNone
| PFloat (x : float_t)
| PInt (n : Z)
| PDatetime (t : datetime_t)
| PTimedelta (d : timedelta_t).

(** A coercion applied to the [text] of an element: [None] is a
    [TypeError], a text the coercion rejects a [ValueError]. *)
Definition coerce {A} (conv : string -> option A) (s : option string) : exc A :=
  match s with
  | None => raise TypeError
  | Some s => match conv s with
              | Some a => ret a
              | None => raise ValueError
              end
  end.

Definition py_float : option string -> exc float_t := coerce float_of_string.
Definition py_int : option string -> exc Z := coerce int_of_string.

(** [dateutil.parser.parse] on the [text] of an element: [None] is a
    [TypeError]; on a text it does not parse the parser raises its own
    exception. *)
Definition dp_parse (s : option string) : exc datetime_t :=
  match s with
  | None => raise TypeError
  | Some s => match datetime_of_string s with
              | Some t => ret t
              | None => raise (datetime_error s)
              end
  end.

(** Truthiness of an [Optional[dict]]: [None] and the empty dict are
    false. *)
Definition truthy (r : option (gmap string pyval)) : bool :=
  match r with
  | None => false
  | Some d => negb (bool_decide (d = ∅))
  end.

(** *** pandas.DataFrame *)

Record DataFrame : Type := {
  index_name : option string;
  index : list pyval;
  columns : list string;
  rows : list (list pyval);
}.

(** The cell a record contributes to a column: its value under that key,
    the null cell when the key is missing. *)
Definition cell (d : gmap string pyval) (column : string) : pyval :=
  default PNone (d !! column).

(** The cells pandas counts as null ([isna]): [None], and a float that is
    NaN. *)
Definition is_null (v : pyval) : bool :=
  match v with
  | PNone => true
  | PFloat x => float_is_nan x
  | PInt _ | PDatetime _ | PTimedelta _ => false
  end.

Definition range_index (n : nat) : list pyval :=
  map (fun i => PInt (Z.of_nat i)) (seq 0 n).

(** [pd.DataFrame(data, columns=cols)] for a list of dicts. *)
Definition DataFrame_of (data : list (gmap string pyval)) (cols : list string)
  : DataFrame :=
  {| index_name := None;
     index := range_index (length data);
     columns := cols;
     rows := map (fun d => map (cell d) cols) data |}.

Fixpoint position (c : string) (cols : list string) : option nat :=
  match cols with
  | [] => None
  | c' :: cols' => if String.eqb c c' then Some O
                   else S <$> position c cols'
  end.

Fixpoint drop_nth {A} (i : nat) (l : list A) : list A :=
  match i, l with
  | _, [] => []
  | O, _ :: l' => l'
  | S i', x :: l' => x :: drop_nth i' l'
  end.

(** [df.set_index(key, inplace=True)]: the column becomes the index and
    leaves the columns. *)
Definition set_index (key : string) (df : DataFrame) : exc DataFrame :=
  match position key (columns df) with
  | None => raise KeyError
  | Some i =>
      ret {| index_name := Some key;
             index := map (fun r => nth i r PNone) (rows df);
             columns := drop_nth i (columns df);
             rows := map (drop_nth i) (rows df) |}
  end.
End Values.

(** ** parse_tcx.py *)

Module ParseTcx.
Section Tcx.
Context `{Coercions}.

(** [lxml.etree.parse(fname).getroot()]: the root element of the file at
    a path, or the failure of opening or parsing it. *)
Context (etree_parse : string -> exc Element).

Definition NAMESPACES : list (string * string) := [
  ("ns", "http://www.garmin.com/xmlschemas/TrainingCenterDatabase/v2");
  ("ns2", "http://www.garmin.com/xmlschemas/UserProfile/v2");
  ("ns3", "http://www.garmin.com/xmlschemas/ActivityExtension/v2");
  ("ns4", "http://www.garmin.com/xmlschemas/ProfileExtension/v1");
  ("ns5", "http://www.garmin.com/xmlschemas/ActivityGoals/v1")
].

Definition POINTS_COLUMN_NAMES : list string :=
  ["latitude"; "longitude"; "elevation"; "time"; "heart_rate"; "cadence";
   "speed"; "lap"].

Definition LAPS_COLUMN_NAMES : list string :=
  ["number"; "start_time"; "distance"; "total_time"; "max_speed"; "max_hr";
   "avg_hr"].

Definition get_tcx_lap_data (lap : Element) : exc (gmap string pyval) :=
  let data : gmap string pyval := ∅ in
  do start_time_str <- attrib_item lap "StartTime";
  do start_time <- dp_parse (Some start_time_str);
  let data := <["start_time" := PDatetime start_time]> data in
  let distance_elem := find "ns:DistanceMeters" NAMESPACES lap in
  do data <-
    match distance_elem with
    | Some distance_elem =>
        do distance <- py_float (text distance_elem);
        ret (<["distance" := PFloat distance]> data)
    | None => ret data
    end;
  let total_time_elem := find "ns:TotalTimeSeconds" NAMESPACES lap in
  do data <-
    match total_time_elem with
    | Some total_time_elem =>
        do seconds <- py_float (text total_time_elem);
        do total_time <- timedelta_of_seconds seconds;
        ret (<["total_time" := PTimedelta total_time]> data)
    | None => ret data
    end;
  let max_speed_elem := find "ns:MaximumSpeed" NAMESPACES lap in
  do data <-
    match max_speed_elem with
    | Some max_speed_elem =>
        do max_speed <- py_float (text max_speed_elem);
        ret (<["max_speed" := PFloat max_speed]> data)
    | None => ret data
    end;
  let max_hr_elem := find "ns:MaximumHeartRateBpm" NAMESPACES lap in
  do data <-
    match max_hr_elem with
    | Some max_hr_elem =>
        do value_text <- text_of (find "ns:Value" NAMESPACES max_hr_elem);
        do max_hr <- py_float value_text;
        ret (<["max_hr" := PFloat max_hr]> data)
    | None => ret data
    end;
  let avg_hr_elem := find "ns:AverageHeartRateBpm" NAMESPACES lap in
  do data <-
    match avg_hr_elem with
    | Some avg_hr_elem =>
        do value_text <- text_of (find "ns:Value" NAMESPACES avg_hr_elem);
        do avg_hr <- py_float value_text;
        ret (<["avg_hr" := PFloat avg_hr]> data)
    | None => ret data
    end;
  ret data.

Definition get_tcx_point_data (point : Element)
  : exc (option (gmap string pyval)) :=
  let data : gmap string pyval := ∅ in
  let position := find "ns:Position" NAMESPACES point in
  match position with
  | None =>
      (* no latitude or longitude data: the point is ignored *)
      ret None
  | Some position =>
      do lat_text <- text_of (find "ns:LatitudeDegrees" NAMESPACES position);
      do latitude <- py_float lat_text;
      let data := <["latitude" := PFloat latitude]> data in
      do lon_text <- text_of (find "ns:LongitudeDegrees" NAMESPACES position);
      do longitude <- py_float lon_text;
      let data := <["longitude" := PFloat longitude]> data in
      do time_str <- text_of (find "ns:Time" NAMESPACES point);
      do time <- dp_parse time_str;
      let data := <["time" := PDatetime time]> data in
      let elevation_elem := find "ns:AltitudeMeters" NAMESPACES point in
      do data <-
        match elevation_elem with
        | Some elevation_elem =>
            do elevation <- py_float (text elevation_elem);
            ret (<["elevation" := PFloat elevation]> data)
        | None => ret data
        end;
      let hr_elem := find "ns:HeartRateBpm" NAMESPACES point in
      do data <-
        match hr_elem with
        | Some hr_elem =>
            do value_text <- text_of (find "ns:Value" NAMESPACES hr_elem);
            do heart_rate <- py_int value_text;
            ret (<["heart_rate" := PInt heart_rate]> data)
        | None => ret data
        end;
      let cad_elem := find "ns:Cadence" NAMESPACES point in
      do data <-
        match cad_elem with
        | Some cad_elem =>
            do cadence <- py_int (text cad_elem);
            ret (<["cadence" := PInt cadence]> data)
        | None => ret data
        end;
      let speed_elem := find ".//ns3:Speed" NAMESPACES point in
      do data <-
        match speed_elem with
        | Some speed_elem =>
            do speed <- py_float (text speed_elem);
            ret (<["speed" := PFloat speed]> data)
        | None => ret data
        end;
      ret (Some data)
  end.

(** The variables the loop of [get_dataframes] updates. *)
Record loop_state : Type := {
  points_data : list (gmap string pyval);
  laps_data : list (gmap string pyval);
  lap_no : Z;
}.

(** Body of the inner loop, over the track points of one lap. *)
Definition point_body (lap_no : Z) (points_data : list (gmap string pyval))
    (point : Element) : exc (list (gmap string pyval)) :=
  do single_point_data <- get_tcx_point_data point;
  if truthy single_point_data then
    match single_point_data with
    | Some d => ret (points_data ++ [<["lap" := PInt lap_no]> d])
    | None => raise TypeError
    end
  else ret points_data.

(** Body of the outer loop, over the laps of the activity. *)
Definition lap_body (st : loop_state) (lap : Element) : exc loop_state :=
  do single_lap_data <- get_tcx_lap_data lap;
  let single_lap_data := <["number" := PInt (lap_no st)]> single_lap_data in
  let laps := laps_data st ++ [single_lap_data] in
  let track := find "ns:Track" NAMESPACES lap in
  do trackpoints <- findall_in "ns:Trackpoint" NAMESPACES track;
  do points <- for_each (point_body (lap_no st)) trackpoints (points_data st);
  ret {| points_data := points; laps_data := laps; lap_no := lap_no st + 1 |}.

Definition initial_state : loop_state :=
  {| points_data := []; laps_data := []; lap_no := 1 |}.

Definition get_dataframes (fname : string) : exc (DataFrame * DataFrame) :=
  do root <- etree_parse fname;
  do activity <- first_child (find "ns:Activities" NAMESPACES root);
  do st <- for_each lap_body (findall "ns:Lap" NAMESPACES activity)
             initial_state;
  let laps_df := DataFrame_of (laps_data st) LAPS_COLUMN_NAMES in
  do laps_df <- set_index "number" laps_df;
  let points_df := DataFrame_of (points_data st) POINTS_COLUMN_NAMES in
  ret (laps_df, points_df).

(** *** Conditions on the input

    [point_readable] and [lap_readable] say that what the extractors read
    without a guard is there, and that every text they coerce is accepted.
    They are exactly the inputs on which the extractors raise nothing
    ([point_readable_iff], [lap_readable_iff]). *)

Definition value_of (wrapper : option Element) : option Element :=
  match wrapper with
  | Some w => find "ns:Value" NAMESPACES w
  | None => None
  end.

Definition accepted_seconds (r : option Element) : bool :=
  match r with
  | Some e =>
      match text e with
      | Some s =>
          match float_of_string s with
          | Some x => match timedelta_of_seconds x with
                      | inr _ => true
                      | inl _ => false
                      end
          | None => false
          end
      | None => false
      end
  | None => false
  end.

Definition point_readable (point : Element) : bool :=
  match find "ns:Position" NAMESPACES point with
  | None => false
  | Some position =>
      accepted float_of_string (find "ns:LatitudeDegrees" NAMESPACES position)
      && accepted float_of_string (find "ns:LongitudeDegrees" NAMESPACES position)
      && accepted datetime_of_string (find "ns:Time" NAMESPACES point)
      && if_present (accepted float_of_string)
           (find "ns:AltitudeMeters" NAMESPACES point)
      && if_present (fun w => accepted int_of_string (value_of w))
           (find "ns:HeartRateBpm" NAMESPACES point)
      && if_present (accepted int_of_string) (find "ns:Cadence" NAMESPACES point)
      && if_present (accepted float_of_string)
           (find ".//ns3:Speed" NAMESPACES point)
  end.

Definition lap_readable (lap : Element) : bool :=
  match attrib lap !! "StartTime" with
  | Some s => match datetime_of_string s with Some _ => true | None => false end
  | None => false
  end
  && if_present (accepted float_of_string)
       (find "ns:DistanceMeters" NAMESPACES lap)
  && if_present accepted_seconds (find "ns:TotalTimeSeconds" NAMESPACES lap)
  && if_present (accepted float_of_string)
       (find "ns:MaximumSpeed" NAMESPACES lap)
  && if_present (fun w => accepted float_of_string (value_of w))
       (find "ns:MaximumHeartRateBpm" NAMESPACES lap)
  && if_present (fun w => accepted float_of_string (value_of w))
       (find "ns:AverageHeartRateBpm" NAMESPACES lap).

(** The track points the loop of [get_dataframes] visits: for each lap of
    the activity, the [Trackpoint] children of the lap's [Track]. *)
Definition track_points (lap : Element) : list Element :=
  match find "ns:Track" NAMESPACES lap with
  | Some track => findall "ns:Trackpoint" NAMESPACES track
  | None => []
  end.

Definition input_points (activity : Element) : list Element :=
  flat_map track_points (findall "ns:Lap" NAMESPACES activity).

(** The columns of the lap table once [number] is the index. *)
Definition lap_cells : list string :=
  ["start_time"; "distance"; "total_time"; "max_speed"; "max_hr"; "avg_hr"].

Definition has_position (point : Element) : bool :=
  present (find "ns:Position" NAMESPACES point).

Definition has_track (lap : Element) : bool :=
  present (find "ns:Track" NAMESPACES lap).

(** Records numbered consecutively from [n], as the loop numbers them. *)
Fixpoint number_from (n : Z) (ds : list (gmap string pyval))
  : list (gmap string pyval) :=
  match ds with
  | [] => []
  | d :: ds' => <["number" := PInt n]> d :: number_from (n + 1) ds'
  end.

(** [rec] is the record of [point], tagged with some lap number. *)
Definition point_record (point : Element) (rec : gmap string pyval) : Prop :=
  exists d n, get_tcx_point_data point = ret (Some d)
              /\ rec = <["lap" := PInt n]> d.

(** [d] is the record of [lap], before it is numbered. *)
Definition lap_record (lap : Element) (d : gmap string pyval) : Prop :=
  get_tcx_lap_data lap = ret d.

(** The activity [get_dataframes] works on. *)
Definition first_activity (fname : string) : exc Element :=
  do root <- etree_parse fname;
  first_child (find "ns:Activities" NAMESPACES root).

(** A lap the loop body goes through: the lap is readable, it has a
    track, and every track point of the track that has a position is
    readable. *)
Definition lap_processable (lap : Element) : bool :=
  lap_readable lap
  && has_track lap
  && forallb (fun point => negb (has_position point) || point_readable point)
       (track_points lap).

Definition activity_processable (activity : Element) : bool :=
  forallb lap_processable (findall "ns:Lap" NAMESPACES activity).

(** Groups of point records, one group per lap, tagged with the number of
    their lap counted from [n] and laid end to end. *)
Fixpoint tag_laps (n : Z) (groups : list (list (gmap string pyval)))
  : list (gmap string pyval) :=
  match groups with
  | [] => []
  | g :: groups' =>
      map (fun d => <["lap" := PInt n]> d) g ++ tag_laps (n + 1) groups'
  end.

(** [ds] are the records of the points of [lap] that have a position, in
    order. *)
Definition lap_point_records (lap : Element) (ds : list (gmap string pyval))
  : Prop :=
  Forall2 (fun point d => get_tcx_point_data point = ret (Some d))
    (List.filter has_position (track_points lap)) ds.

End Tcx.
End ParseTcx.

(** ** parse_gpx.py *)

Module ParseGpx.
Section Gpx.
Context `{Coercions}.

(** The object tree gpxpy builds: the attributes the script reads. A
    point's [elevation] and [time] are [None] when the file has none;
    [extensions] are the XML elements below the point's extensions node. *)
Record GPXTrackPoint : Type := {
  latitude : float_t;
  longitude : float_t;
  elevation : option float_t;
  time : option datetime_t;
  extensions : list Element;
}.

Record GPXTrackSegment : Type := { points : list GPXTrackPoint }.
Record GPXTrack : Type := { segments : list GPXTrackSegment }.
Record GPX : Type := { tracks : list GPXTrack }.

(** [open(fname)]: the content of the file at a path, [None] when it
    cannot be opened. *)
Context (open_file : string -> option string).

(** [gpxpy.parse(f)]: [None] when gpxpy rejects the content. *)
Context (gpxpy_parse : string -> option GPX).

Definition NAMESPACES : list (string * string) :=
  [("garmin_tpe", "http://www.garmin.com/xmlschemas/TrackPointExtension/v1")].

Definition COLUMN_NAMES : list string :=
  ["latitude"; "longitude"; "elevation"; "time"; "heart_rate"; "cadence"].

(** [try: body except AttributeError: pass], where [body] assigns to
    [data] last: on the exception [data] is what it was. *)
Definition try_except_AttributeError {A} (body : exc A) (unchanged : A)
  : exc A :=
  match body with
  | inl AttributeError => ret unchanged
  | r => r
  end.

Definition optional {A} (f : A -> pyval) (o : option A) : pyval :=
  match o with
  | Some a => f a
  | None => PNone
  end.

Definition get_gpx_point_data (point : GPXTrackPoint)
  : exc (gmap string pyval) :=
  let data : gmap string pyval :=
    <["time" := optional PDatetime (time point)]>
      (<["elevation" := optional PFloat (elevation point)]>
        (<["longitude" := PFloat (longitude point)]>
          (<["latitude" := PFloat (latitude point)]> ∅))) in
  do elem <- first_item (extensions point);
  do data <-
    try_except_AttributeError
      (do hr_text <- text_of (find "garmin_tpe:hr" NAMESPACES elem);
       do heart_rate <- py_int hr_text;
       ret (<["heart_rate" := PInt heart_rate]> data))
      data;
  do data <-
    try_except_AttributeError
      (do cad_text <- text_of (find "garmin_tpe:cad" NAMESPACES elem);
       do cadence <- py_int cad_text;
       ret (<["cadence" := PInt cadence]> data))
      data;
  ret data.

Definition get_dataframe_from_gpx (fname : string) : exc DataFrame :=
  do f <- match open_file fname with
          | Some f => ret f
          | None => raise IOError
          end;
  do gpx <- match gpxpy_parse f with
            | Some gpx => ret gpx
            | None => raise ParseError
            end;
  do track <- first_item (tracks gpx);
  do segment <- first_item (segments track);
  do data <- comprehension get_gpx_point_data (points segment);
  ret (DataFrame_of data COLUMN_NAMES).

(** *** Conditions on the input *)

(** The point has an extension block, and the heart-rate and cadence
    tags that the block has carry text that [int] accepts. Exactly the
    points on which the extractor raises nothing
    ([gpx_point_readable_iff]). *)
Definition gpx_point_readable (point : GPXTrackPoint) : bool :=
  match extensions point with
  | [] => false
  | elem :: _ =>
      if_present (accepted int_of_string) (find "garmin_tpe:hr" NAMESPACES elem)
      && if_present (accepted int_of_string)
           (find "garmin_tpe:cad" NAMESPACES elem)
  end.

(** [d] is the record of [point]. *)
Definition gpx_record (point : GPXTrackPoint) (d : gmap string pyval) : Prop :=
  get_gpx_point_data point = ret d.

(** The segment [get_dataframe_from_gpx] works on. *)
Definition first_segment (fname : string) : exc GPXTrackSegment :=
  do f <- match open_file fname with
          | Some f => ret f
          | None => raise IOError
          end;
  do gpx <- match gpxpy_parse f with
            | Some gpx => ret gpx
            | None => raise ParseError
            end;
  do track <- first_item (tracks gpx);
  first_item (segments track).

Definition segment_readable (segment : GPXTrackSegment) : bool :=
  forallb gpx_point_readable (points segment).

End Gpx.
End ParseGpx.

(** ** A concrete runtime for examples

    Decimal texts are read exactly, as a mantissa and a number of decimal
    places; timestamps are kept as their text. *)

Record decimal : Type := { mantissa : Z; places : nat }.

Definition digit_of (c : ascii) : option Z :=
  let n := Z.of_nat (nat_of_ascii c) in
  if (48 <=? n) && (n <=? 57) then Some (n - 48) else None.

Fixpoint read_digits (s : string) (acc : Z) : option Z :=
  match s with
  | EmptyString => Some acc
  | String c s' =>
      match digit_of c with
      | Some d => read_digits s' (10 * acc + d)
      | None => None
      end
  end.

Definition read_natural (s : string) : option Z :=
  match s with
  | EmptyString => None
  | _ => read_digits s 0
  end.

Definition read_integer (s : string) : option Z :=
  match s with
  | String "-" s' => Z.opp <$> read_natural s'
  | _ => read_natural s
  end.

Fixpoint split_point (acc s : string) : string * option string :=
  match s with
  | EmptyString => (acc, None)
  | String c s' =>
      if Ascii.eqb c "."%char then (acc, Some s')
      else split_point (acc +:+ String c EmptyString) s'
  end.

Definition read_unsigned_decimal (s : string) : option decimal :=
  match split_point "" s with
  | (whole, None) =>
      m ← read_natural whole; Some {| mantissa := m; places := O |}
  | (whole, Some frac) =>
      m ← read_natural (whole +:+ frac);
      Some {| mantissa := m; places := String.length frac |}
  end.

Definition read_decimal (s : string) : option decimal :=
  match s with
  | String "-" s' =>
      d ← read_unsigned_decimal s';
      Some {| mantissa := - mantissa d; places := places d |}
  | _ => read_unsigned_decimal s
  end.

Definition read_timestamp (s : string) : option string :=
  match s with
  | EmptyString => None
  | _ => Some s
  end.

Definition decimal_runtime : Coercions := {|
  float_t := decimal;
  datetime_t := string;
  timedelta_t := decimal;
  float_of_string := read_decimal;
  int_of_string := read_integer;
  datetime_of_string := read_timestamp;
  datetime_error := fun _ => ValueError;
  timedelta_of_seconds := fun x => ret x;
  float_is_nan := fun _ => false;
|}.

(** ** Sample documents *)

Module Samples.

Definition tcx (local : string) : string :=
  "{http://www.garmin.com/xmlschemas/TrainingCenterDatabase/v2}" +:+ local.

Definition ext (local : string) : string :=
  "{http://www.garmin.com/xmlschemas/ActivityExtension/v2}" +:+ local.

Definition leaf (t s : string) : Element := Elem t ∅ (Some s) [].
Definition node (t : string) (cs : list Element) : Element := Elem t ∅ None cs.

Definition position_node : Element :=
  node (tcx "Position")
    [leaf (tcx "LatitudeDegrees") "53.3498"; leaf (tcx "LongitudeDegrees") "-6.2603"].

(** A track point with every field the extractor reads. *)
Definition full_point : Element :=
  node (tcx "Trackpoint")
    [leaf (tcx "Time") "2021-05-01T10:00:05Z";
     position_node;
     leaf (tcx "AltitudeMeters") "12.5";
     node (tcx "HeartRateBpm") [leaf (tcx "Value") "141"];
     leaf (tcx "Cadence") "86";
     node (tcx "Extensions") [node (ext "TPX") [leaf (ext "Speed") "3.1"]]].

(** A track point with a time and nothing else. *)
Definition point_without_position : Element :=
  node (tcx "Trackpoint") [leaf (tcx "Time") "2021-05-01T10:00:06Z"].

(** A track point with a position and no time. *)
Definition point_without_time : Element :=
  node (tcx "Trackpoint") [position_node].

(** A track point with a position and a time only. *)
Definition bare_point : Element :=
  node (tcx "Trackpoint")
    [leaf (tcx "Time") "2021-05-01T10:00:07Z"; position_node].

Definition start_attr : gmap string string :=
  {[ "StartTime" := "2021-05-01T10:00:00Z" ]}.

Definition lap_a : Element :=
  Elem (tcx "Lap") start_attr None
    [leaf (tcx "TotalTimeSeconds") "65.0";
     leaf (tcx "DistanceMeters") "1609.34";
     node (tcx "Track") [full_point; point_without_position]].

(** A lap with neither heart-rate wrapper and two points with positions. *)
Definition lap_b : Element :=
  Elem (tcx "Lap") start_attr None
    [leaf (tcx "DistanceMeters") "1000";
     node (tcx "Track") [full_point; bare_point]].



Definition lap_without_track : Element :=
  Elem (tcx "Lap") start_attr None [leaf (tcx "DistanceMeters") "1000"].

Definition document (laps : list Element) : Element :=
  node (tcx "TrainingCenterDatabase")
    [node (tcx "Activities") [node (tcx "Activity") laps]].

(** A file system with three TCX files. *)
Definition tcx_files (fname : string) : exc Element :=
  if String.eqb fname "two_laps.tcx" then ret (document [lap_a; lap_b])
  else if String.eqb fname "complete.tcx" then ret (document [lap_b])
  else if String.eqb fname "trackless.tcx"
       then ret (document [lap_b; lap_without_track])
  else raise IOError.

Definition tpe (local : string) : string :=
  "{http://www.garmin.com/xmlschemas/TrackPointExtension/v1}" +:+ local.

Definition gpx_point (extension : Element)
  : ParseGpx.GPXTrackPoint (H := decimal_runtime) :=
  @ParseGpx.Build_GPXTrackPoint decimal_runtime
    {| mantissa := 533498; places := 4 |}
    {| mantissa := -62603; places := 4 |}
    (Some {| mantissa := 125; places := 1 |})
    (Some "2021-05-01T10:00:05Z")
    [extension].

(** Extension blocks: with both tags, with the cadence only, and with a
    heart rate that is not an integer. *)
Definition extension_full : Element :=
  node (tpe "TrackPointExtension") [leaf (tpe "hr") "141"; leaf (tpe "cad") "86"].

Definition extension_cad_only : Element :=
  node (tpe "TrackPointExtension") [leaf (tpe "cad") "86"].

Definition extension_bad_hr : Element :=
  node (tpe "TrackPointExtension") [leaf (tpe "hr") "141.5"].

Definition gpx_document : ParseGpx.GPX (H := decimal_runtime) :=
  ParseGpx.Build_GPX
    [ParseGpx.Build_GPXTrack
       [ParseGpx.Build_GPXTrackSegment
          [gpx_point extension_full; gpx_point extension_cad_only]]].

(** A file system with three GPX files and one file that is not GPX; the
    content of a file stands for what gpxpy makes of it. *)
Definition gpx_open (fname : string) : option string :=
  if String.eqb fname "run.gpx" then Some "run"
  else if String.eqb fname "no_tracks.gpx" then Some "no tracks"
  else if String.eqb fname "no_segments.gpx" then Some "no segments"
  else if String.eqb fname "notes.txt" then Some "notes"
  else None.

Definition gpx_parse (content : string)
  : option (ParseGpx.GPX (H := decimal_runtime)) :=
  if String.eqb content "run" then Some gpx_document
  else if String.eqb content "no tracks" then Some (ParseGpx.Build_GPX [])
  else if String.eqb content "no segments"
       then Some (ParseGpx.Build_GPX [ParseGpx.Build_GPXTrack []])
  else None.

End Samples.

(** ** Sample documents for the edges *)

Module EdgeSamples.
Import Samples.

(** A lap element without the [StartTime] attribute. *)
Definition lap_without_start : Element :=
  Elem (tcx "Lap") ∅ None
    [leaf (tcx "DistanceMeters") "1000"; node (tcx "Track") []].

Definition root_without_activities : Element :=
  node (tcx "TrainingCenterDatabase") [].

Definition root_with_empty_activities : Element :=
  node (tcx "TrainingCenterDatabase") [node (tcx "Activities") []].

(** A file system with a file that is not XML, a document without
    [Activities], one whose [Activities] is empty, and one whose activity
    has no lap. *)
Definition edge_files (fname : string) : exc Element :=
  if String.eqb fname "not_xml.tcx" then raise ParseError
  else if String.eqb fname "no_activities.tcx" then ret root_without_activities
  else if String.eqb fname "empty_activities.tcx"
       then ret root_with_empty_activities
  else if String.eqb fname "no_laps.tcx" then ret (document [])
  else raise IOError.

(** A GPX point without an extension block. *)
Definition gpx_point_without_extension
  : ParseGpx.GPXTrackPoint (H := decimal_runtime) :=
  @ParseGpx.Build_GPXTrackPoint decimal_runtime
    {| mantissa := 533498; places := 4 |}
    {| mantissa := -62603; places := 4 |}
    None
    None
    [].

(** An extension block whose heart-rate tag is empty. *)
Definition extension_empty_hr : Element :=
  node (tpe "TrackPointExtension") [node (tpe "hr") []].

End EdgeSamples.

(** * Properties *)

Arguments find : simpl never.
Arguments findall : simpl never.

(** ** The error monad *)

Lemma bind_inr {A B} (m : exc A) (k : A -> exc B) (b : B) :
  bind m k = inr b -> exists a, m = inr a /\ k a = inr b.
Proof. destruct m as [e|a]; [discriminate | eauto]. Qed.

Lemma returns_inr {A} (m : exc A) : returns m = true -> exists a, m = inr a.
Proof. destruct m as [e|a]; [discriminate | eauto]. Qed.

Lemma accepted_inv {A} (conv : string -> option A) (r : option Element) :
  accepted conv r = true ->
  exists e s a, r = Some e /\ text e = Some s /\ conv s = Some a.
Proof.
  unfold accepted. destruct r as [e|]; [|discriminate].
  destruct (text e) as [s|] eqn:Hs; [|discriminate].
  destruct (conv s) as [a|] eqn:Ha; [|discriminate]. by exists e, s, a.
Qed.

Lemma coerce_accepted {A} (conv : string -> option A) (e : Element) :
  accepted conv (Some e) = true <-> exists a, coerce conv (text e) = inr a.
Proof.
  unfold accepted, coerce. destruct (text e) as [s|]; [destruct (conv s)|];
    split; try discriminate; eauto; intros [? ?]; discriminate.
Qed.

Lemma read_accepted {A} (conv : string -> option A) (r : option Element) :
  accepted conv r = true <->
  exists a, (do t <- text_of r; coerce conv t) = inr a.
Proof.
  destruct r as [e|]; [apply coerce_accepted|].
  split; [discriminate | intros [? ?]; discriminate].
Qed.

Lemma read_accepted_intro {A} (conv : string -> option A) r t (a : A) :
  text_of r = inr t -> coerce conv t = inr a -> accepted conv r = true.
Proof. intros Ht Ha. apply read_accepted. exists a. by rewrite Ht. Qed.

Lemma coerce_accepted_intro {A} (conv : string -> option A) e (a : A) :
  coerce conv (text e) = inr a -> accepted conv (Some e) = true.
Proof. intros Ha. apply coerce_accepted. eauto. Qed.

(** Replay an accepted read in the goal. *)
Ltac use_accepted H :=
  let e := fresh "e" in
  let s := fresh "s" in
  let a := fresh "a" in
  let Hr := fresh "Hr" in
  let Hs := fresh "Hs" in
  let Ha := fresh "Ha" in
  cbn [if_present ParseTcx.value_of] in H;
  apply accepted_inv in H as (e & s & a & Hr & Hs & Ha);
  first [ injection Hr as <- | rewrite Hr ];
  cbn [text_of bind ret]; rewrite Hs; cbn [coerce]; rewrite Ha; cbn [bind ret].

(** Peel a successful run apart, one statement at a time. *)
Ltac exc_inv :=
  unfold ret, raise in *;
  repeat match goal with
    | H : inl _ = inr _ |- _ => discriminate H
    | H : inr _ = inl _ |- _ => discriminate H
    | H : None = Some _ |- _ => discriminate H
    | H : inr _ = inr _ |- _ => injection H as H; try subst
    | H : Some _ = Some _ |- _ => injection H as H; try subst
    | H : bind ?m _ = inr _ |- _ =>
        let a := fresh "a" in
        let E := fresh "E" in
        apply bind_inr in H as (a & E & H)
    | H : match ?r with Some _ => _ | None => _ end = inr _ |- _ =>
        let E := fresh "E" in destruct r eqn:E
    end.

Section TcxPoint.
Context `{Coercions}.
Import ParseTcx.

Lemma dp_parse_accepted_intro (r : option Element) (t : option string)
    (a : datetime_t) :
  text_of r = inr t -> dp_parse t = inr a ->
  accepted datetime_of_string r = true.
Proof.
  destruct r as [e|]; [|discriminate]. intros [= <-].
  unfold accepted, dp_parse. destruct (text e) as [s|]; [|discriminate].
  by destruct (datetime_of_string s).
Qed.

Lemma point_none (point : Element) :
  find "ns:Position" NAMESPACES point = None ->
  get_tcx_point_data point = ret None.
Proof. intros Hpos. unfold get_tcx_point_data. rewrite Hpos. reflexivity. Qed.

Lemma point_some (point : Element) (r : option (gmap string pyval)) :
  is_Some (find "ns:Position" NAMESPACES point) ->
  get_tcx_point_data point = ret r ->
  exists d, r = Some d
    /\ is_Some (d !! "latitude") /\ is_Some (d !! "longitude")
    /\ is_Some (d !! "time").
Proof.
  intros [pos Hpos] Hrun. unfold get_tcx_point_data in Hrun.
  rewrite Hpos in Hrun. exc_inv.
  all: eexists; split; [reflexivity|].
  all: rewrite !lookup_insert_is_Some'; auto 10.
Qed.

Lemma point_readable_run (point : Element) :
  point_readable point = true ->
  exists d, get_tcx_point_data point = ret (Some d).
Proof.
  unfold point_readable, get_tcx_point_data, py_float, py_int, dp_parse.
  destruct (find "ns:Position" NAMESPACES point) as [pos|]; [|discriminate].
  rewrite !andb_true_iff. intros [[[[[[Hlat Hlon] Htime] Hele] Hhr] Hcad] Hspeed].
  use_accepted Hlat. use_accepted Hlon. use_accepted Htime.
  destruct (find "ns:AltitudeMeters" NAMESPACES point) as [ele|];
    [use_accepted Hele|].
  all: destruct (find "ns:HeartRateBpm" NAMESPACES point) as [hr|];
    [use_accepted Hhr|].
  all: destruct (find "ns:Cadence" NAMESPACES point) as [cad|];
    [use_accepted Hcad|].
  all: destruct (find ".//ns3:Speed" NAMESPACES point) as [speed|];
    [use_accepted Hspeed|].
  all: cbn [bind ret]; eauto.
Qed.

Lemma point_run_readable (point : Element) (d : gmap string pyval) :
  get_tcx_point_data point = ret (Some d) -> point_readable point = true.
Proof.
  unfold point_readable, get_tcx_point_data, py_float, py_int.
  intros Hrun. exc_inv.
  all: cbn [if_present value_of]; rewrite !andb_true_iff; repeat split.
  all: eauto using read_accepted_intro, coerce_accepted_intro,
         dp_parse_accepted_intro.
Qed.

Lemma point_readable_iff (point : Element) :
  point_readable point = true <->
  exists d, get_tcx_point_data point = ret (Some d).
Proof.
  split; [apply point_readable_run|].
  intros [d Hd]. by eapply point_run_readable.
Qed.

End TcxPoint.

Section TcxLap.
Context `{Coercions}.
Import ParseTcx.

Lemma lap_readable_run (lap : Element) :
  lap_readable lap = true -> exists d, get_tcx_lap_data lap = ret d.
Proof.
  unfold lap_readable, get_tcx_lap_data, attrib_item, py_float, dp_parse.
  rewrite !andb_true_iff. intros [[[[[Hstart Hdist] Htotal] Hspeed] Hmax] Havg].
  destruct (attrib lap !! "StartTime") as [s|]; [|discriminate].
  cbn [bind ret coerce].
  destruct (datetime_of_string s) as [t|]; [|discriminate]. cbn [bind ret].
  destruct (find "ns:DistanceMeters" NAMESPACES lap) as [dist|];
    [use_accepted Hdist|].
  all: destruct (find "ns:TotalTimeSeconds" NAMESPACES lap) as [total|];
    [ cbn [if_present accepted_seconds] in Htotal;
      destruct (text total) as [s'|]; [|discriminate]; cbn [coerce];
      destruct (float_of_string s') as [x|]; [|discriminate]; cbn [bind ret];
      destruct (timedelta_of_seconds x) as [|td]; [discriminate|] |].
  all: destruct (find "ns:MaximumSpeed" NAMESPACES lap) as [speed|];
    [use_accepted Hspeed|].
  all: destruct (find "ns:MaximumHeartRateBpm" NAMESPACES lap) as [maxhr|];
    [use_accepted Hmax|].
  all: destruct (find "ns:AverageHeartRateBpm" NAMESPACES lap) as [avghr|];
    [use_accepted Havg|].
  all: cbn [bind ret]; eauto.
Qed.

Lemma seconds_accepted_intro (e : Element) (x : float_t) (td : timedelta_t) :
  coerce float_of_string (text e) = inr x ->
  timedelta_of_seconds x = inr td ->
  accepted_seconds (Some e) = true.
Proof.
  unfold accepted_seconds, coerce. destruct (text e) as [s|]; [|discriminate].
  destruct (float_of_string s); [|discriminate].
  intros [= ->] ->. reflexivity.
Qed.

Lemma start_time_intro (lap : Element) (s : string) (t : datetime_t) :
  attrib_item lap "StartTime" = inr s ->
  dp_parse (Some s) = inr t ->
  match attrib lap !! "StartTime" with
  | Some s => match datetime_of_string s with Some _ => true | None => false end
  | None => false
  end = true.
Proof.
  unfold attrib_item, dp_parse.
  destruct (attrib lap !! "StartTime"); [|discriminate]. intros [= ->].
  by destruct (datetime_of_string s).
Qed.

Lemma lap_run_readable (lap : Element) (d : gmap string pyval) :
  get_tcx_lap_data lap = ret d -> lap_readable lap = true.
Proof.
  unfold lap_readable, get_tcx_lap_data, py_float.
  intros Hrun. exc_inv.
  all: cbn [if_present value_of]; rewrite !andb_true_iff; repeat split.
  all: eauto using read_accepted_intro, coerce_accepted_intro,
         seconds_accepted_intro, start_time_intro.
Qed.


(** What the lap extractor leaves out of its record. *)
Lemma lap_record_omits (lap : Element) (d : gmap string pyval) :
  get_tcx_lap_data lap = ret d ->
  d !! "number" = None
  /\ (find "ns:MaximumHeartRateBpm" NAMESPACES lap = None -> d !! "max_hr" = None)
  /\ (find "ns:AverageHeartRateBpm" NAMESPACES lap = None -> d !! "avg_hr" = None).
Proof.
  unfold get_tcx_lap_data. intros Hrun. exc_inv.
  all: repeat split; try discriminate; intros _.
  all: by simplify_map_eq.
Qed.

End TcxLap.

(** ** The loops of [get_dataframes] *)

Lemma filter_length_all {A} (f : A -> bool) (l : list A) :
  (length (List.filter f l) <= length l)%nat
  /\ (length (List.filter f l) = length l <-> Forall (fun x => f x = true) l).
Proof.
  induction l as [|x l [IHle IHeq]]; cbn [List.filter length].
  - split; [lia|]. split; [constructor | reflexivity].
  - destruct (f x) eqn:Hx; cbn [length]; (split; [lia|]).
    + rewrite Forall_cons. split.
      * intros Hlen. split; [assumption|]. apply IHeq. lia.
      * intros [_ Hall]. f_equal. by apply IHeq.
    + split; [lia|]. intros Hall. apply Forall_cons in Hall as [Hfalse _].
      congruence.
Qed.

Lemma for_each_app {S A} (body : S -> A -> exc S) (xs ys : list A) (s : S) :
  for_each body (xs ++ ys) s = do s' <- for_each body xs s; for_each body ys s'.
Proof.
  revert s. induction xs as [|x xs IH]; intros s; cbn [for_each app bind ret].
  - reflexivity.
  - destruct (body s x) as [e|s1]; cbn [bind]; [reflexivity | apply IH].
Qed.

Section TcxLoops.
Context `{Coercions}.
Import ParseTcx.

Lemma record_truthy (point : Element) (d : gmap string pyval) :
  get_tcx_point_data point = ret (Some d) -> d <> ∅ /\ truthy (Some d) = true.
Proof.
  intros Hrun.
  assert (d <> ∅) as Hne.
  { intros ->.
    destruct (find "ns:Position" NAMESPACES point) as [pos|] eqn:Hpos.
    - destruct (point_some point (Some ∅)) as (d & [= <-] & [x Hx] & _);
        [by eexists | assumption |].
      by rewrite lookup_empty in Hx.
    - rewrite point_none in Hrun by assumption. discriminate. }
  split; [assumption|]. cbn [truthy]. by rewrite bool_decide_false.
Qed.

Lemma point_body_run (n : Z) (pts pts' : list (gmap string pyval))
    (point : Element) :
  point_body n pts point = ret pts' ->
  (has_position point = false /\ pts' = pts)
  \/ (has_position point = true
      /\ exists rec, point_record point rec /\ pts' = pts ++ [rec]).
Proof.
  unfold point_body, has_position. intros Hrun.
  apply bind_inr in Hrun as (r & Hr & Hrun).
  destruct (find "ns:Position" NAMESPACES point) as [pos|] eqn:Hpos.
  - right. split; [reflexivity|].
    destruct (point_some point r) as (d & -> & _); [by eexists | assumption |].
    destruct (record_truthy point d Hr) as [_ Ht]. rewrite Ht in Hrun. exc_inv.
    eexists. split; [|reflexivity]. by exists d, n.
  - left. split; [reflexivity|].
    rewrite point_none in Hr by assumption. exc_inv. by cbn in Hrun; exc_inv.
Qed.

(** The inner loop appends one record per point with a position, in
    order. *)
Lemma points_loop_run (n : Z) (points : list Element)
    (pts pts' : list (gmap string pyval)) :
  for_each (point_body n) points pts = ret pts' ->
  exists recs, pts' = pts ++ recs
    /\ Forall2 point_record (List.filter has_position points) recs.
Proof.
  revert pts. induction points as [|p points IH]; intros pts Hrun;
    cbn [for_each] in Hrun.
  - exc_inv. exists []. by rewrite app_nil_r.
  - apply bind_inr in Hrun as (pts1 & Hbody & Hrun).
    apply IH in Hrun as (recs & -> & Hrecs).
    apply point_body_run in Hbody as [[Hpos ->]|(Hpos & rec & Hrec & ->)];
      cbn [List.filter]; rewrite Hpos.
    + by exists recs.
    + exists (rec :: recs). rewrite <- app_assoc. by split; [|constructor].
Qed.

Lemma lap_body_run (st st' : loop_state) (lap : Element) :
  lap_body st lap = ret st' ->
  has_track lap = true
  /\ lap_no st' = lap_no st + 1
  /\ (exists d, lap_record lap d
        /\ laps_data st' = laps_data st ++ [<["number" := PInt (lap_no st)]> d])
  /\ (exists recs, points_data st' = points_data st ++ recs
        /\ Forall2 point_record (List.filter has_position (track_points lap)) recs).
Proof.
  unfold lap_body, has_track, track_points. intros Hrun.
  apply bind_inr in Hrun as (d & Hd & Hrun).
  destruct (find "ns:Track" NAMESPACES lap) as [track|]; cbn [findall_in] in Hrun;
    [|exc_inv].
  apply bind_inr in Hrun as (trackpoints & [= <-] & Hrun).
  apply bind_inr in Hrun as (pts & Hpts & [= <-]). cbn.
  apply points_loop_run in Hpts. eauto 10.
Qed.

(** The outer loop: every lap it passes has a track; laps are numbered
    consecutively from the counter; point records are appended in order. *)
Lemma laps_loop_run (laps : list Element) (st st' : loop_state) :
  for_each lap_body laps st = ret st' ->
  Forall (fun lap => has_track lap = true) laps
  /\ lap_no st' = lap_no st + Z.of_nat (length laps)
  /\ (exists ds, Forall2 lap_record laps ds
        /\ laps_data st' = laps_data st ++ number_from (lap_no st) ds)
  /\ (exists recs, points_data st' = points_data st ++ recs
        /\ Forall2 point_record
             (List.filter has_position (flat_map track_points laps)) recs).
Proof.
  revert st. induction laps as [|lap laps IH]; intros st Hrun;
    cbn [for_each] in Hrun.
  - exc_inv. split; [constructor|]. split; [cbn; lia|].
    split; [exists [] | exists []]; rewrite app_nil_r; by split.
  - apply bind_inr in Hrun as (st1 & Hbody & Hrun).
    apply lap_body_run in Hbody
      as (Htrack & Hno & (d & Hd & Hlaps) & (recs & Hpts & Hrecs)).
    apply IH in Hrun
      as (Htracks & Hno' & (ds & Hds & Hlaps') & (recs' & Hpts' & Hrecs')).
    split; [by constructor|]. split; [cbn [length]; lia|]. split.
    + exists (d :: ds). split; [by constructor|].
      rewrite Hlaps', Hlaps, Hno, <- app_assoc. reflexivity.
    + exists (recs ++ recs'). split.
      * rewrite Hpts', Hpts, <- app_assoc. reflexivity.
      * cbn [flat_map]. rewrite List.filter_app. by apply Forall2_app.
Qed.

End TcxLoops.

(** ** The TCX assembler *)

Section TcxAssembler.
Context `{Coercions}.
Context (etree_parse : string -> exc Element).
Import ParseTcx.

Lemma get_dataframes_unfold (fname : string) :
  get_dataframes etree_parse fname =
  do activity <- first_activity etree_parse fname;
  do st <- for_each lap_body (findall "ns:Lap" NAMESPACES activity) initial_state;
  ret ({| index_name := Some "number";
          index := map (fun d => cell d "number") (laps_data st);
          columns := lap_cells;
          rows := map (fun d => map (cell d) lap_cells) (laps_data st) |},
       DataFrame_of (points_data st) POINTS_COLUMN_NAMES).
Proof.
  unfold get_dataframes, first_activity.
  destruct (etree_parse fname) as [e|root]; [reflexivity|]. cbn [bind].
  destruct (first_child _) as [e|activity]; [reflexivity|]. cbn [bind].
  destruct (for_each _ _ _) as [e|st]; [reflexivity|]. cbn [bind].
  unfold set_index, DataFrame_of, ret. cbn. rewrite !map_map. reflexivity.
Qed.

Lemma get_dataframes_run (fname : string) (laps_df points_df : DataFrame) :
  get_dataframes etree_parse fname = ret (laps_df, points_df) ->
  exists activity st,
    first_activity etree_parse fname = ret activity
    /\ for_each lap_body (findall "ns:Lap" NAMESPACES activity) initial_state
       = ret st
    /\ laps_df = {| index_name := Some "number";
                    index := map (fun d => cell d "number") (laps_data st);
                    columns := lap_cells;
                    rows := map (fun d => map (cell d) lap_cells) (laps_data st) |}
    /\ points_df = DataFrame_of (points_data st) POINTS_COLUMN_NAMES.
Proof.
  rewrite get_dataframes_unfold. intros Hrun.
  apply bind_inr in Hrun as (activity & Hact & Hrun).
  apply bind_inr in Hrun as (st & Hst & [= <- <-]).
  by exists activity, st.
Qed.

Lemma number_from_index (n : Z) (ds : list (gmap string pyval)) :
  map (fun d => cell d "number") (number_from n ds)
  = PInt <$> seqZ n (Z.of_nat (length ds)).
Proof.
  revert n. induction ds as [|d ds IH]; intros n; [reflexivity|].
  cbn [number_from map length]. rewrite Nat2Z.inj_succ, seqZ_cons by lia.
  rewrite fmap_cons, Z.pred_succ, <- IH. f_equal.
  unfold cell. by rewrite lookup_insert_eq.
Qed.

Lemma number_from_cells (n : Z) (ds : list (gmap string pyval)) :
  map (fun d => map (cell d) lap_cells) (number_from n ds)
  = map (fun d => map (cell d) lap_cells) ds.
Proof.
  revert n. induction ds as [|d ds IH]; intros n; [reflexivity|].
  cbn [number_from map]. rewrite IH. f_equal.
  unfold lap_cells, cell. cbn [map]. by rewrite !lookup_insert_ne.
Qed.

End TcxAssembler.

(** ** Track points of the TCX format *)

Section TcxClaims.
Context `{Coercions}.
Context (etree_parse : string -> exc Element).
Import ParseTcx.

(** C1, as amended. A track point without a [Position] child yields no
    record ([None]). For a track point with a [Position] child the
    extractor either raises or yields exactly one record, and that record
    has latitude, longitude and time; it yields the record exactly when
    the point is readable (latitude, longitude and time are there and
    every text read is accepted by its coercion), and raises when the
    point is not. In every successful run of
    [get_dataframes] the number of point rows is at most the number of
    track points visited, with equality if and only if every visited point
    has a [Position] child. *)
Theorem C1_position_decides_record :
  (forall point, has_position point = false ->
     get_tcx_point_data point = ret None)
  /\ (forall point, has_position point = true ->
        (point_readable point = true
           <-> exists d, get_tcx_point_data point = ret (Some d))
        /\ (point_readable point = false ->
              exists e, get_tcx_point_data point = raise e)
        /\ (forall r, get_tcx_point_data point = ret r ->
              exists d, r = Some d
                /\ is_Some (d !! "latitude") /\ is_Some (d !! "longitude")
                /\ is_Some (d !! "time")))
  /\ (forall fname laps_df points_df,
        get_dataframes etree_parse fname = ret (laps_df, points_df) ->
        exists activity,
          first_activity etree_parse fname = ret activity
          /\ (length (rows points_df) <= length (input_points activity))%nat
          /\ (length (rows points_df) = length (input_points activity)
              <-> Forall (fun p => has_position p = true)
                    (input_points activity))).
Proof.
  split; [|split].
  - intros point Hpos. apply point_none. unfold has_position in Hpos.
    by destruct (find "ns:Position" NAMESPACES point).
  - intros point Hpos.
    assert (is_Some (find "ns:Position" NAMESPACES point)) as Hsome.
    { unfold has_position in Hpos.
      by destruct (find "ns:Position" NAMESPACES point). }
    split; [apply point_readable_iff|]. split; [|intros r; by apply point_some].
    intros Hnot.
    destruct (get_tcx_point_data point) as [e|r] eqn:Hrun; [by exists e|].
    exfalso. destruct (point_some point r Hsome Hrun) as (d & -> & _).
    apply point_run_readable in Hrun. congruence.
  - intros fname laps_df points_df Hrun.
    apply get_dataframes_run in Hrun as (activity & st & Hact & Hloop & _ & ->).
    exists activity. split; [assumption|].
    apply laps_loop_run in Hloop as (_ & _ & _ & recs & Hpts & Hrecs).
    cbn in Hpts. apply Forall2_length in Hrecs.
    cbn [DataFrame_of rows]. rewrite length_map, Hpts, <- Hrecs.
    apply filter_length_all.
Qed.

(** C6. A track point with a [Position] child and no [Time] child never
    yields a record and is never skipped: the extractor raises. When the
    position itself is readable, what it raises is the [AttributeError]
    of reading [.text] on the missing [Time]. *)
Theorem C6_missing_time_raises (point position : Element) :
  find "ns:Position" NAMESPACES point = Some position ->
  find "ns:Time" NAMESPACES point = None ->
  (exists e, get_tcx_point_data point = raise e)
  /\ (accepted float_of_string
        (find "ns:LatitudeDegrees" NAMESPACES position) = true ->
      accepted float_of_string
        (find "ns:LongitudeDegrees" NAMESPACES position) = true ->
      get_tcx_point_data point = raise AttributeError).
Proof.
  intros Hpos Htime. split.
  - destruct (get_tcx_point_data point) as [e|r] eqn:Hrun; [by exists e|].
    exfalso. destruct (point_some point r) as (d & -> & _);
      [by eexists | assumption |].
    apply point_run_readable in Hrun. unfold point_readable in Hrun.
    rewrite Hpos, Htime in Hrun. cbn [accepted] in Hrun.
    rewrite !andb_true_iff in Hrun. by destruct Hrun as [[[[[_ ?] _] _] _] _].
  - intros Hlat Hlon.
    unfold get_tcx_point_data, py_float. rewrite Hpos.
    use_accepted Hlat. use_accepted Hlon. by rewrite Htime.
Qed.

(** C10. A dict returned by [get_tcx_point_data] is never empty: it has
    at least latitude and longitude. So on the extractor's results the
    truthiness test of the assembler agrees with a test for [None], and
    the loop body appends every record produced. *)
Theorem C10_truthiness_is_not_none (point : Element)
    (r : option (gmap string pyval)) :
  get_tcx_point_data point = ret r ->
  (truthy r = true <-> r <> None)
  /\ (forall d, r = Some d ->
        d <> ∅ /\ is_Some (d !! "latitude") /\ is_Some (d !! "longitude"))
  /\ (forall d n points_data, r = Some d ->
        point_body n points_data point
        = ret (points_data ++ [<["lap" := PInt n]> d])).
Proof.
  intros Hrun. destruct r as [d|].
  - destruct (record_truthy point d Hrun) as [Hne Ht].
    split; [by rewrite Ht|]. split.
    + intros d' [= <-]. split; [assumption|].
      destruct (find "ns:Position" NAMESPACES point) eqn:Hpos.
      * destruct (point_some point (Some d)) as (d' & [= <-] & ? & ? & _);
          [by eexists | assumption | by split].
      * rewrite point_none in Hrun by assumption. discriminate.
    + intros d' n pts [= <-]. unfold point_body. rewrite Hrun.
      cbn [bind ret]. by rewrite Ht.
  - split; [by split | by split].
Qed.

(** C3. In a successful run of [get_dataframes] the lap table is indexed
    by [number], and the index is exactly 1..N in the order of the [Lap]
    elements of the activity, N being their count: the values come from
    the loop counter alone. Row i holds the cells of the record the lap
    extractor returns for the i-th lap, and the extractor's record has no
    [number] key. *)
Theorem C3_lap_numbers_count_from_one (fname : string)
    (laps_df points_df : DataFrame) :
  get_dataframes etree_parse fname = ret (laps_df, points_df) ->
  exists activity ds,
    first_activity etree_parse fname = ret activity
    /\ index_name laps_df = Some "number"
    /\ index laps_df
       = PInt <$> seqZ 1 (Z.of_nat (length (findall "ns:Lap" NAMESPACES activity)))
    /\ Forall2 (fun lap d => get_tcx_lap_data lap = ret d
                             /\ d !! "number" = None)
         (findall "ns:Lap" NAMESPACES activity) ds
    /\ rows laps_df = map (fun d => map (cell d) lap_cells) ds.
Proof.
  intros Hrun.
  apply get_dataframes_run in Hrun as (activity & st & Hact & Hloop & -> & _).
  apply laps_loop_run in Hloop as (_ & _ & (ds & Hds & Hlaps) & _).
  cbn in Hlaps. exists activity, ds. split; [assumption|].
  split; [reflexivity|]. cbn [index rows].
  rewrite Hlaps, number_from_index, number_from_cells.
  rewrite (Forall2_length _ _ _ Hds). split; [reflexivity|].
  split; [|reflexivity].
  eapply Forall2_impl; [exact Hds|]. intros lap d Hd. split; [exact Hd|].
  by apply lap_record_omits in Hd as [? _].
Qed.

(** C9. When a [Lap] element of the activity has no [Track] child,
    [get_dataframes] raises and returns no tables. The lap's own record
    does not save it: wherever the lap extractor succeeds on such a lap,
    the loop body raises [AttributeError] on the missing track; and when
    the laps before it went through and the lap itself is readable, that
    [AttributeError] is what [get_dataframes] raises. *)
Theorem C9_lap_without_track_aborts (fname : string) (activity lap : Element) :
  first_activity etree_parse fname = ret activity ->
  lap ∈ findall "ns:Lap" NAMESPACES activity ->
  has_track lap = false ->
  (exists e, get_dataframes etree_parse fname = raise e)
  /\ (forall st d, get_tcx_lap_data lap = ret d ->
        lap_body st lap = raise AttributeError)
  /\ (forall before after st,
        findall "ns:Lap" NAMESPACES activity = before ++ lap :: after ->
        for_each lap_body before initial_state = ret st ->
        lap_readable lap = true ->
        get_dataframes etree_parse fname = raise AttributeError).
Proof.
  intros Hact Hin Htrack.
  assert (forall st d, get_tcx_lap_data lap = ret d ->
            lap_body st lap = raise AttributeError) as Hbody.
  { intros st d Hd. unfold lap_body, has_track in *. rewrite Hd. cbn [bind ret].
    by destruct (find "ns:Track" NAMESPACES lap). }
  split; [|split; [exact Hbody|]].
  - destruct (get_dataframes etree_parse fname) as [e|[laps_df points_df]] eqn:Hrun;
      [by exists e|]. exfalso.
    apply get_dataframes_run in Hrun as (activity' & st & Hact' & Hloop & _).
    rewrite Hact in Hact'. injection Hact' as <-.
    apply laps_loop_run in Hloop as (Htracks & _).
    rewrite Forall_forall in Htracks. apply Htracks in Hin. congruence.
  - intros before after st Hsplit Hbefore Hread.
    apply lap_readable_run in Hread as [d Hd].
    rewrite get_dataframes_unfold, Hact. cbn [bind ret].
    rewrite Hsplit, for_each_app, Hbefore. cbn [bind ret for_each].
    by rewrite (Hbody st d Hd).
Qed.

End TcxClaims.

(** ** Heart-rate wrappers of the TCX format *)

Section TcxWrappers.
Context `{Coercions}.
Import ParseTcx.





End TcxWrappers.

(** ** The GPX pipeline *)

Lemma comprehension_run {A B} (f : A -> exc B) (xs : list A) (ys : list B) :
  comprehension f xs = ret ys -> Forall2 (fun x y => f x = ret y) xs ys.
Proof.
  revert ys. induction xs as [|x xs IH]; intros ys Hrun;
    cbn [comprehension] in Hrun.
  - exc_inv. constructor.
  - apply bind_inr in Hrun as (y & Hy & Hrun).
    apply bind_inr in Hrun as (ys' & Hys & [= <-]).
    constructor; [exact Hy | by apply IH].
Qed.

Section GpxClaims.
Context `{Coercions}.
Context (open_file : string -> option string).
Context (gpxpy_parse : string -> option ParseGpx.GPX).
Import ParseGpx.

Lemma try_except_inv {A} (body : exc A) (unchanged a : A) :
  try_except_AttributeError body unchanged = inr a ->
  body = inr a \/ (body = inl AttributeError /\ a = unchanged).
Proof.
  unfold try_except_AttributeError. destruct body as [[]|b]; intros Hrun;
    try discriminate; [right | left]; exc_inv; auto.
Qed.

Lemma gpx_point_readable_run (point : GPXTrackPoint) :
  gpx_point_readable point = true ->
  exists d, get_gpx_point_data point = ret d.
Proof.
  unfold gpx_point_readable, get_gpx_point_data, py_int.
  destruct (extensions point) as [|elem rest]; [discriminate|].
  rewrite andb_true_iff. intros [Hhr Hcad]. cbn [first_item bind ret].
  destruct (find "garmin_tpe:hr" NAMESPACES elem) as [hr|]; [use_accepted Hhr|].
  all: cbn [text_of bind raise try_except_AttributeError ret].
  all: destruct (find "garmin_tpe:cad" NAMESPACES elem) as [cad|];
    [use_accepted Hcad|].
  all: cbn [text_of bind raise try_except_AttributeError ret]; eauto.
Qed.

(** One guarded read: the tag is absent and the record is unchanged, or
    its text is an integer and the record gets the key. *)
Lemma guarded_read_inv (r : option Element) (key : string)
    (data d' : gmap string pyval) :
  try_except_AttributeError
    (do t <- text_of r;
     do n <- coerce int_of_string t;
     ret (<[key := PInt n]> data)) data = inr d' ->
  if_present (accepted int_of_string) r = true
  /\ ((r = None /\ d' = data)
      \/ exists e n, r = Some e /\ d' = <[key := PInt n]> data).
Proof.
  destruct r as [e|]; cbn [text_of bind ret raise if_present accepted coerce
                           try_except_AttributeError].
  - unfold coerce. destruct (text e) as [s|]; [|discriminate].
    destruct (int_of_string s) as [n|]; [|discriminate].
    cbn [bind ret try_except_AttributeError]. intros [= <-].
    split; [reflexivity|]. right. by exists e, n.
  - intros [= <-]. auto.
Qed.

Lemma gpx_point_run (point : GPXTrackPoint) (d : gmap string pyval) :
  get_gpx_point_data point = ret d ->
  gpx_point_readable point = true
  /\ d !! "latitude" = Some (PFloat (latitude point))
  /\ d !! "longitude" = Some (PFloat (longitude point))
  /\ d !! "elevation" = Some (optional PFloat (elevation point))
  /\ d !! "time" = Some (optional PDatetime (time point))
  /\ forall elem rest, extensions point = elem :: rest ->
       (find "garmin_tpe:hr" NAMESPACES elem = None -> d !! "heart_rate" = None)
       /\ (find "garmin_tpe:cad" NAMESPACES elem = None -> d !! "cadence" = None).
Proof.
  unfold gpx_point_readable, get_gpx_point_data, py_int. intros Hrun.
  apply bind_inr in Hrun as (elem & Helem & Hrun).
  destruct (extensions point) as [|elem' rest]; [discriminate|].
  injection Helem as ->.
  apply bind_inr in Hrun as (d1 & Hhr & Hrun).
  apply bind_inr in Hrun as (d2 & Hcad & [= <-]).
  apply guarded_read_inv in Hhr as [Hhr_ok Hhr].
  apply guarded_read_inv in Hcad as [Hcad_ok Hcad].
  rewrite Hhr_ok, Hcad_ok. split; [reflexivity|].
  destruct Hhr as [[Ehr ->]|(hr & n & Ehr & ->)];
    destruct Hcad as [[Ecad ->]|(cad & m & Ecad & ->)].
  all: do 4 (split; [by simplify_map_eq|]).
  all: intros ? ? [= <- <-]; rewrite Ehr, Ecad.
  all: split; intros E; try discriminate E; by simplify_map_eq.
Qed.

Lemma gpx_point_readable_iff (point : GPXTrackPoint) :
  gpx_point_readable point = true <-> exists d, get_gpx_point_data point = ret d.
Proof.
  split; [apply gpx_point_readable_run|].
  intros [d Hd]. by apply gpx_point_run in Hd as [? _].
Qed.

Lemma get_dataframe_from_gpx_unfold (fname : string) :
  get_dataframe_from_gpx open_file gpxpy_parse fname =
  do segment <- first_segment open_file gpxpy_parse fname;
  do data <- comprehension get_gpx_point_data (points segment);
  ret (DataFrame_of data COLUMN_NAMES).
Proof.
  unfold get_dataframe_from_gpx, first_segment.
  destruct (open_file fname) as [f|]; [|reflexivity]. cbn [bind ret].
  destruct (gpxpy_parse f) as [gpx|]; [|reflexivity]. cbn [bind ret].
  destruct (first_item (tracks gpx)) as [e|track]; [reflexivity|]. cbn [bind].
  destruct (first_item (segments track)); reflexivity.
Qed.

Lemma get_dataframe_from_gpx_run (fname : string) (df : DataFrame) :
  get_dataframe_from_gpx open_file gpxpy_parse fname = ret df ->
  exists segment data,
    first_segment open_file gpxpy_parse fname = ret segment
    /\ Forall2 gpx_record (points segment) data
    /\ df = DataFrame_of data COLUMN_NAMES.
Proof.
  rewrite get_dataframe_from_gpx_unfold. intros Hrun.
  apply bind_inr in Hrun as (segment & Hseg & Hrun).
  apply bind_inr in Hrun as (data & Hdata & [= <-]).
  exists segment, data. split; [assumption|].
  split; [by apply comprehension_run | reflexivity].
Qed.

(** C4. [get_dataframe_from_gpx] raises [IOError] when the file cannot
    be opened, the parser's error when gpxpy rejects the content, and
    [IndexError] when the parsed document has no track or its first track
    has no segment. Nothing catches any of them: the result is the
    exception, and no table. *)
Theorem C4_gpx_failures_propagate (fname : string) :
  (open_file fname = None ->
     get_dataframe_from_gpx open_file gpxpy_parse fname = raise IOError)
  /\ (forall f, open_file fname = Some f -> gpxpy_parse f = None ->
        get_dataframe_from_gpx open_file gpxpy_parse fname = raise ParseError)
  /\ (forall f gpx, open_file fname = Some f -> gpxpy_parse f = Some gpx ->
        tracks gpx = [] ->
        get_dataframe_from_gpx open_file gpxpy_parse fname = raise IndexError)
  /\ (forall f gpx track rest,
        open_file fname = Some f -> gpxpy_parse f = Some gpx ->
        tracks gpx = track :: rest -> segments track = [] ->
        get_dataframe_from_gpx open_file gpxpy_parse fname = raise IndexError).
Proof.
  unfold get_dataframe_from_gpx. repeat split.
  - by intros ->.
  - intros f Hf Hgpx. rewrite Hf. cbn [bind ret]. by rewrite Hgpx.
  - intros f gpx Hf Hgpx Htracks. rewrite Hf. cbn [bind ret].
    rewrite Hgpx. cbn [bind ret]. by rewrite Htracks.
  - intros f gpx track rest Hf Hgpx Htracks Hsegments. rewrite Hf.
    cbn [bind ret]. rewrite Hgpx. cbn [bind ret]. rewrite Htracks.
    cbn [first_item bind ret]. by rewrite Hsegments.
Qed.

(** C5, as amended. For a GPX track point with one extension block,
    [get_gpx_point_data] returns a record exactly when the heart-rate and
    cadence tags that the block has carry text that [int] accepts; a tag
    that the block lacks raises nothing. The record then has latitude,
    longitude, elevation and time as gpxpy gives them, and it has no
    [heart_rate] (no [cadence]) key when the block lacks the tag. *)
Theorem C5_missing_extension_tag_omits (point : GPXTrackPoint) (elem : Element) :
  extensions point = [elem] ->
  (if_present (accepted int_of_string) (find "garmin_tpe:hr" NAMESPACES elem)
   && if_present (accepted int_of_string) (find "garmin_tpe:cad" NAMESPACES elem)
   = true
   <-> exists d, get_gpx_point_data point = ret d)
  /\ (find "garmin_tpe:hr" NAMESPACES elem = None ->
      find "garmin_tpe:cad" NAMESPACES elem = None ->
      exists d, get_gpx_point_data point = ret d)
  /\ (forall d, get_gpx_point_data point = ret d ->
        d !! "latitude" = Some (PFloat (latitude point))
        /\ d !! "longitude" = Some (PFloat (longitude point))
        /\ d !! "elevation" = Some (optional PFloat (elevation point))
        /\ d !! "time" = Some (optional PDatetime (time point))
        /\ (find "garmin_tpe:hr" NAMESPACES elem = None ->
              d !! "heart_rate" = None)
        /\ (find "garmin_tpe:cad" NAMESPACES elem = None ->
              d !! "cadence" = None)).
Proof.
  intros Hext.
  assert (gpx_point_readable point
          = if_present (accepted int_of_string)
              (find "garmin_tpe:hr" NAMESPACES elem)
            && if_present (accepted int_of_string)
                 (find "garmin_tpe:cad" NAMESPACES elem)) as Hread.
  { unfold gpx_point_readable. by rewrite Hext. }
  split; [rewrite <- Hread; apply gpx_point_readable_iff|]. split.
  - intros Hhr Hcad. apply gpx_point_readable_iff.
    by rewrite Hread, Hhr, Hcad.
  - intros d Hd.
    apply gpx_point_run in Hd as (_ & Hlat & Hlon & Hele & Htime & Htags).
    destruct (Htags elem [] Hext) as [Hhr Hcad]. by repeat split.
Qed.

End GpxClaims.

(** ** The tables *)

Section Tables.
Context `{Coercions}.
Context (etree_parse : string -> exc Element).
Context (open_file : string -> option string).
Context (gpxpy_parse : string -> option ParseGpx.GPX).

(** C7, as amended. In every successful run the GPX table has the
    columns [latitude, longitude, elevation, time, heart_rate, cadence]
    and the TCX point table the columns [latitude, longitude, elevation,
    time, heart_rate, cadence, speed, lap], in this order. The TCX lap
    table is indexed by [number] and has the columns [start_time,
    distance, total_time, max_speed, max_hr, avg_hr]: the declared order,
    with [number] moved from the columns to the index. Each row holds,
    column by column, the cells of one record, and the cell of a key the
    record lacks is null. *)
Theorem C7_tables_have_declared_columns :
  (forall fname df,
     ParseGpx.get_dataframe_from_gpx open_file gpxpy_parse fname = ret df ->
     index_name df = None
     /\ columns df = ["latitude"; "longitude"; "elevation"; "time";
                      "heart_rate"; "cadence"]
     /\ exists segment data,
          ParseGpx.first_segment open_file gpxpy_parse fname = ret segment
          /\ Forall2 ParseGpx.gpx_record (ParseGpx.points segment) data
          /\ rows df = map (fun d => map (cell d) (columns df)) data)
  /\ (forall fname laps_df points_df,
        ParseTcx.get_dataframes etree_parse fname = ret (laps_df, points_df) ->
        index_name laps_df = Some "number"
        /\ columns laps_df = ["start_time"; "distance"; "total_time";
                              "max_speed"; "max_hr"; "avg_hr"]
        /\ "number" :: columns laps_df = ParseTcx.LAPS_COLUMN_NAMES
        /\ index_name points_df = None
        /\ columns points_df = ["latitude"; "longitude"; "elevation"; "time";
                                "heart_rate"; "cadence"; "speed"; "lap"]
        /\ exists activity ds recs,
             ParseTcx.first_activity etree_parse fname = ret activity
             /\ Forall2 ParseTcx.lap_record
                  (findall "ns:Lap" ParseTcx.NAMESPACES activity) ds
             /\ rows laps_df = map (fun d => map (cell d) (columns laps_df)) ds
             /\ Forall2 ParseTcx.point_record
                  (List.filter ParseTcx.has_position
                     (ParseTcx.input_points activity)) recs
             /\ rows points_df
                = map (fun d => map (cell d) (columns points_df)) recs)
  /\ (forall (d : gmap string pyval) column,
        d !! column = None -> cell d column = PNone).
Proof.
  split; [|split].
  - intros fname df Hrun.
    apply get_dataframe_from_gpx_run in Hrun as (segment & data & Hseg & Hdata & ->).
    split; [reflexivity|]. split; [reflexivity|]. by exists segment, data.
  - intros fname laps_df points_df Hrun.
    apply get_dataframes_run in Hrun as (activity & st & Hact & Hloop & -> & ->).
    apply laps_loop_run in Hloop
      as (_ & _ & (ds & Hds & Hlaps) & (recs & Hpts & Hrecs)).
    cbn in Hlaps, Hpts. do 5 (split; [reflexivity|]).
    exists activity, ds, recs. split; [assumption|]. split; [assumption|].
    cbn [rows columns DataFrame_of]. rewrite Hlaps, Hpts, number_from_cells.
    by repeat split.
  - intros d column Hd. unfold cell. by rewrite Hd.
Qed.

End Tables.

(** ** Numeric fields of a lap *)

Section TcxLapNumbers.
Context `{Coercions}.
Import ParseTcx.

(** The lap extractor hands the text of [DistanceMeters] to [float] as it
    is and stores what [float] returns; the text of [TotalTimeSeconds]
    goes through [float] and then [timedelta]. What these two compute on
    a given text is the runtime's business, not the extractor's. *)
Lemma lap_numbers_are_coerced_text (lap : Element) (d : gmap string pyval) :
  get_tcx_lap_data lap = ret d ->
  (forall e, find "ns:DistanceMeters" NAMESPACES lap = Some e ->
     exists x, py_float (text e) = ret x /\ d !! "distance" = Some (PFloat x))
  /\ (forall e, find "ns:TotalTimeSeconds" NAMESPACES lap = Some e ->
        exists x t, py_float (text e) = ret x
                    /\ timedelta_of_seconds x = ret t
                    /\ d !! "total_time" = Some (PTimedelta t)).
Proof.
  unfold get_tcx_lap_data. intros Hrun. exc_inv.
  all: split; intros ? [= <-]; eexists; try eexists;
    repeat (split; [eassumption|]); try eassumption.
  all: by simplify_map_eq.
Qed.

End TcxLapNumbers.

(** * The properties on the sample documents *)

Section OnSamples.
Import Samples.
#[local] Existing Instance decimal_runtime.

(** C1 fails as it was stated: a track point with a [Position] child and
    no [Time] child yields no record, the extractor raises. *)
Lemma C1_counterexample :
  ParseTcx.has_position point_without_time = true
  /\ ParseTcx.get_tcx_point_data point_without_time = raise AttributeError
  /\ ~ exists d, ParseTcx.get_tcx_point_data point_without_time = ret (Some d).
Proof.
  split; [reflexivity|]. split; [reflexivity|]. intros [d Hd]. discriminate Hd.
Qed.

Lemma C1_position_decides_record_witness :
  ParseTcx.get_tcx_point_data point_without_position = ret None
  /\ (exists d, ParseTcx.get_tcx_point_data full_point = ret (Some d))
  /\ exists laps_df points_df activity,
       ParseTcx.get_dataframes tcx_files "two_laps.tcx" = ret (laps_df, points_df)
       /\ ParseTcx.first_activity tcx_files "two_laps.tcx" = ret activity
       /\ (length (rows points_df) <= length (ParseTcx.input_points activity))%nat.
Proof.
  destruct (C1_position_decides_record tcx_files) as (Hnone & Hsome & Hrows).
  split; [apply Hnone; reflexivity|].
  split; [destruct (Hsome full_point) as ([Hrun _] & _);
          [reflexivity | apply Hrun; reflexivity]|].
  destruct (returns_inr (ParseTcx.get_dataframes tcx_files "two_laps.tcx")) as [[laps_df points_df] Hrun]; [reflexivity|].
  destruct (Hrows _ _ _ Hrun) as (activity & Hact & Hle & _).
  exists laps_df, points_df, activity. split; [exact Hrun|].
  split; [exact Hact | exact Hle].
Defined.

Lemma C6_missing_time_raises_witness :
  ParseTcx.get_tcx_point_data point_without_time = raise AttributeError.
Proof.
  apply (C6_missing_time_raises point_without_time position_node); reflexivity.
Defined.

Lemma C10_truthiness_is_not_none_witness :
  exists d, ParseTcx.get_tcx_point_data full_point = ret (Some d)
            /\ truthy (Some d) = true /\ d <> ∅.
Proof.
  destruct (point_readable_run full_point) as [d Hrun]; [reflexivity|].
  destruct (C10_truthiness_is_not_none full_point (Some d) Hrun)
    as (Htruthy & Hkeys & _).
  exists d. split; [exact Hrun|].
  split; [apply Htruthy; discriminate|].
  destruct (Hkeys d eq_refl) as [Hne _]. exact Hne.
Defined.

Lemma C3_lap_numbers_count_from_one_witness :
  exists laps_df points_df,
    ParseTcx.get_dataframes tcx_files "two_laps.tcx" = ret (laps_df, points_df)
    /\ index_name laps_df = Some "number"
    /\ index laps_df = [PInt 1; PInt 2].
Proof.
  destruct (returns_inr (ParseTcx.get_dataframes tcx_files "two_laps.tcx")) as [[laps_df points_df] Hrun]; [reflexivity|].
  destruct (C3_lap_numbers_count_from_one tcx_files _ _ _ Hrun)
    as (activity & ds & Hact & Hname & Hindex & _).
  exists laps_df, points_df. split; [exact Hrun|]. split; [exact Hname|].
  rewrite Hindex.
  assert (ParseTcx.first_activity tcx_files "two_laps.tcx"
          = ret (node (tcx "Activity") [lap_a; lap_b])) as Hfirst
    by reflexivity.
  rewrite Hfirst in Hact. injection Hact as <-. reflexivity.
Defined.

Lemma C9_lap_without_track_aborts_witness :
  ParseTcx.get_dataframes tcx_files "trackless.tcx" = raise AttributeError.
Proof.
  destruct (C9_lap_without_track_aborts tcx_files "trackless.tcx"
              (node (tcx "Activity") [lap_b; lap_without_track])
              lap_without_track) as (_ & _ & Hraise).
  - reflexivity.
  - apply (list_elem_of_lookup_2 _ 1%nat). reflexivity.
  - reflexivity.
  - destruct (returns_inr (for_each ParseTcx.lap_body [lap_b] ParseTcx.initial_state)) as [st Hbefore]; [reflexivity|].
    apply (Hraise [lap_b] [] st); [reflexivity | exact Hbefore | reflexivity].
Defined.



Lemma C4_gpx_failures_propagate_witness :
  ParseGpx.get_dataframe_from_gpx gpx_open gpx_parse "missing.gpx" = raise IOError
  /\ ParseGpx.get_dataframe_from_gpx gpx_open gpx_parse "notes.txt"
     = raise ParseError
  /\ ParseGpx.get_dataframe_from_gpx gpx_open gpx_parse "no_tracks.gpx"
     = raise IndexError
  /\ ParseGpx.get_dataframe_from_gpx gpx_open gpx_parse "no_segments.gpx"
     = raise IndexError.
Proof.
  split; [|split; [|split]].
  - destruct (C4_gpx_failures_propagate gpx_open gpx_parse "missing.gpx")
      as (Hopen & _).
    apply Hopen. reflexivity.
  - destruct (C4_gpx_failures_propagate gpx_open gpx_parse "notes.txt")
      as (_ & Hparse & _).
    apply (Hparse "notes"); reflexivity.
  - destruct (C4_gpx_failures_propagate gpx_open gpx_parse "no_tracks.gpx")
      as (_ & _ & Htracks & _).
    apply (Htracks "no tracks" (ParseGpx.Build_GPX [])); reflexivity.
  - destruct (C4_gpx_failures_propagate gpx_open gpx_parse "no_segments.gpx")
      as (_ & _ & _ & Hsegments).
    apply (Hsegments "no segments"
             (ParseGpx.Build_GPX [ParseGpx.Build_GPXTrack []])
             (ParseGpx.Build_GPXTrack []) []); reflexivity.
Defined.

(** C5 fails as it was stated: a point with one extension block whose
    heart-rate tag does not hold an integer yields no record, [int]
    raises [ValueError] and nothing catches it. *)
Lemma C5_counterexample :
  ParseGpx.extensions (gpx_point extension_bad_hr) = [extension_bad_hr]
  /\ ParseGpx.get_gpx_point_data (gpx_point extension_bad_hr) = raise ValueError
  /\ ~ exists d, ParseGpx.get_gpx_point_data (gpx_point extension_bad_hr) = ret d.
Proof.
  split; [reflexivity|]. split; [reflexivity|]. intros [d Hd]. discriminate Hd.
Qed.

Lemma C5_missing_extension_tag_omits_witness :
  exists d, ParseGpx.get_gpx_point_data (gpx_point extension_cad_only) = ret d
            /\ d !! "heart_rate" = None
            /\ is_Some (d !! "latitude").
Proof.
  destruct (C5_missing_extension_tag_omits (gpx_point extension_cad_only)
              extension_cad_only eq_refl) as (Hread & _ & Hrecord).
  destruct Hread as [Hrun _]. destruct Hrun as [d Hd]; [reflexivity|].
  exists d. split; [exact Hd|].
  destruct (Hrecord d Hd) as (Hlat & _ & _ & _ & Hhr & _).
  split; [apply Hhr; reflexivity|]. rewrite Hlat. eexists. reflexivity.
Defined.

(** C7 fails as it was stated: the lap table does not have the column
    [number]; its columns are the six that follow it. *)
Lemma C7_counterexample :
  exists laps_df points_df,
    ParseTcx.get_dataframes tcx_files "complete.tcx" = ret (laps_df, points_df)
    /\ columns laps_df <> ParseTcx.LAPS_COLUMN_NAMES
    /\ columns laps_df = ["start_time"; "distance"; "total_time"; "max_speed";
                          "max_hr"; "avg_hr"].
Proof.
  destruct (returns_inr (ParseTcx.get_dataframes tcx_files "complete.tcx")) as [[laps_df points_df] Hrun]; [reflexivity|].
  exists laps_df, points_df. split; [exact Hrun|].
  apply get_dataframes_run in Hrun as (activity & st & _ & _ & -> & _).
  split; [discriminate | reflexivity].
Qed.

Lemma C7_tables_have_declared_columns_witness :
  (exists df, ParseGpx.get_dataframe_from_gpx gpx_open gpx_parse "run.gpx" = ret df
              /\ columns df = ParseGpx.COLUMN_NAMES)
  /\ exists laps_df points_df,
       ParseTcx.get_dataframes tcx_files "two_laps.tcx" = ret (laps_df, points_df)
       /\ index_name laps_df = Some "number"
       /\ "number" :: columns laps_df = ParseTcx.LAPS_COLUMN_NAMES
       /\ columns points_df = ParseTcx.POINTS_COLUMN_NAMES.
Proof.
  destruct (C7_tables_have_declared_columns tcx_files gpx_open gpx_parse)
    as (Hgpx & Htcx & _).
  split.
  - destruct (returns_inr (ParseGpx.get_dataframe_from_gpx gpx_open gpx_parse "run.gpx")) as [df Hrun]; [reflexivity|].
    exists df. split; [exact Hrun|].
    destruct (Hgpx _ _ Hrun) as (_ & Hcols & _). exact Hcols.
  - destruct (returns_inr (ParseTcx.get_dataframes tcx_files "two_laps.tcx")) as [[laps_df points_df] Hrun]; [reflexivity|].
    exists laps_df, points_df. split; [exact Hrun|].
    destruct (Htcx _ _ _ Hrun) as (Hname & _ & Hlaps & _ & Hcols & _).
    split; [exact Hname|]. split; [exact Hlaps | exact Hcols].
Defined.

End OnSamples.

(** * Further properties of the extractors and assemblers *)

(** ** What [find] selects *)

Lemma head_filter_is_Some {A} (P : A -> Prop) `{!forall x, Decision (P x)}
    (l : list A) :
  is_Some (head (filter P l)) <-> exists x, x ∈ l /\ P x.
Proof.
  induction l as [|a l IH].
  - split; [intros [? [=]] | intros (x & Hx & _); by apply elem_of_nil in Hx].
  - rewrite filter_cons. destruct (decide (P a)) as [Ha|Ha].
    + split; [intros _; exists a; split; [left | exact Ha] | by eexists].
    + rewrite IH. split; intros (x & Hx & HP).
      * exists x. split; [by right | exact HP].
      * apply elem_of_cons in Hx as [->|Hx]; [contradiction | eauto].
Qed.

Lemma head_filter_Some {A} (P : A -> Prop) `{!forall x, Decision (P x)}
    (l : list A) (x : A) :
  head (filter P l) = Some x -> x ∈ l /\ P x.
Proof.
  induction l as [|a l IH]; [discriminate|].
  rewrite filter_cons. destruct (decide (P a)) as [Ha|Ha].
  - intros [= <-]. split; [left | exact Ha].
  - intros Hx. apply IH in Hx as [Hx HP]. split; [by right | exact HP].
Qed.

Section FindFacts.
Import ParseTcx.

(** A path of the form [prefix:Name] looks at the children only. *)
Lemma find_child (name : string) (e c : Element) :
  strip_any_depth name = None ->
  find name NAMESPACES e = Some c ->
  c ∈ children e /\ tag c = clark NAMESPACES name.
Proof.
  unfold find, findall. intros ->.
  apply (head_filter_Some (fun c => tag c = clark NAMESPACES name)).
Qed.

Lemma find_child_is_Some (name : string) (e : Element) :
  strip_any_depth name = None ->
  is_Some (find name NAMESPACES e)
  <-> exists c, c ∈ children e /\ tag c = clark NAMESPACES name.
Proof.
  unfold find, findall. intros ->.
  apply (head_filter_is_Some (fun c => tag c = clark NAMESPACES name)).
Qed.

(** A path of the form [.//prefix:Name] looks at every descendant. *)
Lemma find_descendant_is_Some (name : string) (e : Element) :
  is_Some (find (".//" +:+ name) NAMESPACES e)
  <-> exists c, c ∈ descendants e /\ tag c = clark NAMESPACES name.
Proof.
  unfold find, findall. cbn [strip_any_depth String.append].
  apply (head_filter_is_Some (fun c => tag c = clark NAMESPACES name)).
Qed.

End FindFacts.

(** ** The records, key by key *)

Lemma keys_of_empty {V} (l : list string) (k : string) :
  is_Some ((∅ : gmap string V) !! k) -> k ∈ l.
Proof. rewrite lookup_empty. intros [? [=]]. Qed.

Lemma keys_of_insert {V} (l : list string) (k' : string) (v : V)
    (m : gmap string V) :
  k' ∈ l -> (forall k, is_Some (m !! k) -> k ∈ l) ->
  forall k, is_Some (<[k' := v]> m !! k) -> k ∈ l.
Proof.
  intros Hk' Hm k. rewrite lookup_insert_is_Some.
  intros [<-|[_ Hk]]; [exact Hk' | by apply Hm].
Qed.

(** Close a goal [forall k, is_Some (d !! k) -> k ∈ l] for a [d] built by
    inserts. *)
Ltac in_list :=
  first [ apply list_elem_of_here | apply list_elem_of_further; in_list ].

Ltac keys_in_list :=
  repeat (apply keys_of_insert; [in_list|]); apply keys_of_empty.

(** Settle whether a key is in a [d] built by inserts. *)
Ltac key_fact :=
  simplify_map_eq;
  first [ by eexists
        | split; intros Hkey;
          first [ by eexists | by apply is_Some_None in Hkey ] ].

Lemma text_of_inr (r : option Element) (t : option string) :
  text_of r = inr t -> exists e, r = Some e /\ t = text e.
Proof. destruct r as [e|]; [intros [= <-]; eauto | discriminate]. Qed.

(** Name the element behind every [.text] that was read. *)
Ltac texts_read :=
  repeat match goal with
    | H : text_of _ = inr _ |- _ =>
        let e := fresh "e" in
        let He := fresh "He" in
        apply text_of_inr in H as (e & He & ->)
    end.

Section TcxRecords.
Context `{Coercions}.
Import ParseTcx.

(** X3. The record of a track point has latitude, longitude and time,
    has each of elevation, heart_rate, cadence and speed exactly when the
    element it is read from is found, and has no other key (so no [lap],
    which the assembler adds). *)
Theorem tcx_point_record_keys (point : Element) (d : gmap string pyval) :
  get_tcx_point_data point = ret (Some d) ->
  is_Some (d !! "latitude") /\ is_Some (d !! "longitude")
  /\ is_Some (d !! "time")
  /\ (is_Some (d !! "elevation")
      <-> is_Some (find "ns:AltitudeMeters" NAMESPACES point))
  /\ (is_Some (d !! "heart_rate")
      <-> is_Some (find "ns:HeartRateBpm" NAMESPACES point))
  /\ (is_Some (d !! "cadence")
      <-> is_Some (find "ns:Cadence" NAMESPACES point))
  /\ (is_Some (d !! "speed")
      <-> is_Some (find ".//ns3:Speed" NAMESPACES point))
  /\ forall k, is_Some (d !! k) ->
       k ∈ ["latitude"; "longitude"; "time"; "elevation"; "heart_rate";
            "cadence"; "speed"].
Proof.
  unfold get_tcx_point_data. intros Hrun. exc_inv.
  all: do 7 (split; [key_fact|]).
  all: keys_in_list.
Qed.

(** X4. Every value in the record of a track point is the coercion of
    the text of the element it is read from: [float] for latitude and
    longitude (children of [Position]), elevation and speed, [int] for
    cadence and for heart_rate (the [Value] child of the wrapper), the
    timestamp parser for time. *)
Theorem tcx_point_record_values (point : Element) (d : gmap string pyval) :
  get_tcx_point_data point = ret (Some d) ->
  exists position,
    find "ns:Position" NAMESPACES point = Some position
    /\ (exists e x, find "ns:LatitudeDegrees" NAMESPACES position = Some e
          /\ py_float (text e) = ret x
          /\ d !! "latitude" = Some (PFloat x))
    /\ (exists e x, find "ns:LongitudeDegrees" NAMESPACES position = Some e
          /\ py_float (text e) = ret x
          /\ d !! "longitude" = Some (PFloat x))
    /\ (exists e t, find "ns:Time" NAMESPACES point = Some e
          /\ dp_parse (text e) = ret t
          /\ d !! "time" = Some (PDatetime t))
    /\ (forall e, find "ns:AltitudeMeters" NAMESPACES point = Some e ->
          exists x, py_float (text e) = ret x
                    /\ d !! "elevation" = Some (PFloat x))
    /\ (forall w, find "ns:HeartRateBpm" NAMESPACES point = Some w ->
          exists v n, find "ns:Value" NAMESPACES w = Some v
                      /\ py_int (text v) = ret n
                      /\ d !! "heart_rate" = Some (PInt n))
    /\ (forall e, find "ns:Cadence" NAMESPACES point = Some e ->
          exists n, py_int (text e) = ret n
                    /\ d !! "cadence" = Some (PInt n))
    /\ (forall e, find ".//ns3:Speed" NAMESPACES point = Some e ->
          exists x, py_float (text e) = ret x
                    /\ d !! "speed" = Some (PFloat x)).
Proof.
  unfold get_tcx_point_data. intros Hrun. exc_inv. all: texts_read.
  all: eexists; split; [reflexivity|].
  all: do 3 (split; [do 2 eexists; split; [eassumption|];
                     split; [eassumption | by simplify_map_eq]|]).
  all: repeat split; intros ? [= <-]; repeat eexists; try eassumption;
    by simplify_map_eq.
Qed.

(** X1. The record of a lap has start_time, has each of distance,
    total_time, max_speed, max_hr and avg_hr exactly when the child
    element it is read from is found, and has no other key. *)
Theorem tcx_lap_record_keys (lap : Element) (d : gmap string pyval) :
  get_tcx_lap_data lap = ret d ->
  is_Some (d !! "start_time")
  /\ (is_Some (d !! "distance")
      <-> is_Some (find "ns:DistanceMeters" NAMESPACES lap))
  /\ (is_Some (d !! "total_time")
      <-> is_Some (find "ns:TotalTimeSeconds" NAMESPACES lap))
  /\ (is_Some (d !! "max_speed")
      <-> is_Some (find "ns:MaximumSpeed" NAMESPACES lap))
  /\ (is_Some (d !! "max_hr")
      <-> is_Some (find "ns:MaximumHeartRateBpm" NAMESPACES lap))
  /\ (is_Some (d !! "avg_hr")
      <-> is_Some (find "ns:AverageHeartRateBpm" NAMESPACES lap))
  /\ forall k, is_Some (d !! k) ->
       k ∈ ["start_time"; "distance"; "total_time"; "max_speed"; "max_hr";
            "avg_hr"].
Proof.
  unfold get_tcx_lap_data. intros Hrun. exc_inv.
  all: do 6 (split; [key_fact|]).
  all: keys_in_list.
Qed.

(** X2. Every value in the record of a lap is the coercion of the text
    it is read from: the timestamp parser for the [StartTime] attribute,
    [float] for distance and max_speed, [float] and then [timedelta] for
    total_time, [float] of the [Value] child of the wrapper for max_hr and
    avg_hr. *)
Theorem tcx_lap_record_values (lap : Element) (d : gmap string pyval) :
  get_tcx_lap_data lap = ret d ->
  (exists s t, attrib lap !! "StartTime" = Some s
     /\ dp_parse (Some s) = ret t
     /\ d !! "start_time" = Some (PDatetime t))
  /\ (forall e, find "ns:DistanceMeters" NAMESPACES lap = Some e ->
        exists x, py_float (text e) = ret x
                  /\ d !! "distance" = Some (PFloat x))
  /\ (forall e, find "ns:TotalTimeSeconds" NAMESPACES lap = Some e ->
        exists x t, py_float (text e) = ret x
                    /\ timedelta_of_seconds x = ret t
                    /\ d !! "total_time" = Some (PTimedelta t))
  /\ (forall e, find "ns:MaximumSpeed" NAMESPACES lap = Some e ->
        exists x, py_float (text e) = ret x
                  /\ d !! "max_speed" = Some (PFloat x))
  /\ (forall w, find "ns:MaximumHeartRateBpm" NAMESPACES lap = Some w ->
        exists v x, find "ns:Value" NAMESPACES w = Some v
                    /\ py_float (text v) = ret x
                    /\ d !! "max_hr" = Some (PFloat x))
  /\ (forall w, find "ns:AverageHeartRateBpm" NAMESPACES lap = Some w ->
        exists v x, find "ns:Value" NAMESPACES w = Some v
                    /\ py_float (text v) = ret x
                    /\ d !! "avg_hr" = Some (PFloat x)).
Proof.
  unfold get_tcx_lap_data, attrib_item. intros Hrun. exc_inv. all: texts_read.
  all: split; [do 2 eexists; split; [reflexivity|];
               split; [eassumption | by simplify_map_eq]|].
  all: repeat split; intros ? [= <-]; repeat eexists; try eassumption;
    by simplify_map_eq.
Qed.

End TcxRecords.

(** ** What the extractors raise *)

Lemma text_of_raise (r : option Element) (e : exn) :
  text_of r = inl e -> r = None /\ e = AttributeError.
Proof. destruct r; [discriminate | by intros [= <-]]. Qed.

Lemma coerce_raise {A} (conv : string -> option A) (t : option string)
    (e : exn) :
  coerce conv t = inl e ->
  (t = None /\ e = TypeError)
  \/ (exists s, t = Some s /\ conv s = None /\ e = ValueError).
Proof.
  unfold coerce. destruct t as [s|]; [|intros [= <-]; by left].
  destruct (conv s) eqn:Hs; [discriminate|]. intros [= <-]. right. by exists s.
Qed.

(** Follow a failed run to the statement that raised. *)
Ltac exc_fail :=
  unfold ret, raise in *;
  repeat match goal with
    | H : inr _ = inl _ |- _ => discriminate H
    | H : inl _ = inl _ |- _ => injection H as H; try subst
    | H : bind ?m _ = inl _ |- _ =>
        let E := fresh "E" in destruct m eqn:E; cbn [bind] in H
    | H : match ?r with Some _ => _ | None => _ end = inl _ |- _ =>
        let E := fresh "E" in destruct r eqn:E
    end.

Ltac raised_by :=
  match goal with
  | H : text_of _ = inl _ |- _ => apply text_of_raise in H as [_ ->]
  | H : coerce _ _ = inl _ |- _ =>
      apply coerce_raise in H as [[_ ->]|(? & _ & _ & ->)]
  end.

Section TcxRaises.
Context `{Coercions}.
Import ParseTcx.

Lemma dp_parse_raise (t : option string) (e : exn) :
  dp_parse t = inl e ->
  (t = None /\ e = TypeError)
  \/ (exists s, t = Some s /\ datetime_of_string s = None
                 /\ e = datetime_error s).
Proof.
  unfold dp_parse. destruct t as [s|]; [|intros [= <-]; by left].
  destruct (datetime_of_string s) eqn:Hs; [discriminate|].
  intros [= <-]. right. by exists s.
Qed.

(** X5. The point extractor raises nothing but [AttributeError] (a
    required child is missing), [TypeError] (an element that is read has
    no text), [ValueError] (a text is rejected by [float] or [int]), and
    what the timestamp parser raises on the text of [Time] when it does
    not parse it. *)
Theorem tcx_point_raises_only (point : Element) (e : exn) :
  get_tcx_point_data point = raise e ->
  e = AttributeError \/ e = TypeError \/ e = ValueError
  \/ exists time s,
       find "ns:Time" NAMESPACES point = Some time
       /\ text time = Some s
       /\ datetime_of_string s = None
       /\ e = datetime_error s.
Proof.
  unfold get_tcx_point_data, py_float, py_int. intros Hrun.
  exc_fail. all: try (raised_by; by auto).
  all: match goal with
       | Htext : text_of _ = inr ?t, Hparse : dp_parse ?t = inl _ |- _ =>
           apply text_of_inr in Htext as (time & Htime & ->);
           apply dp_parse_raise in Hparse as [[_ ->]|(s & Hs & Hnone & ->)]
       end.
  all: first [ by auto | do 3 right; by exists time, s ].
Qed.

(** X6. A lap without the [StartTime] attribute makes the lap extractor
    raise [KeyError], whatever its children are. Apart from that the
    extractor raises nothing but [AttributeError], [TypeError],
    [ValueError], what the timestamp parser raises on a [StartTime] it
    does not parse, and what [timedelta] raises on the seconds of
    [TotalTimeSeconds]. *)
Theorem tcx_lap_raises_only (lap : Element) :
  (attrib lap !! "StartTime" = None -> get_tcx_lap_data lap = raise KeyError)
  /\ forall e, get_tcx_lap_data lap = raise e ->
       (e = KeyError /\ attrib lap !! "StartTime" = None)
       \/ e = AttributeError \/ e = TypeError \/ e = ValueError
       \/ (exists s, attrib lap !! "StartTime" = Some s
                     /\ datetime_of_string s = None
                     /\ e = datetime_error s)
       \/ exists total x,
            find "ns:TotalTimeSeconds" NAMESPACES lap = Some total
            /\ py_float (text total) = ret x
            /\ timedelta_of_seconds x = raise e.
Proof.
  split.
  - intros Hattr. unfold get_tcx_lap_data, attrib_item. by rewrite Hattr.
  - unfold get_tcx_lap_data, attrib_item, py_float. intros e Hrun.
    exc_fail. all: exc_inv.
    all: first [ raised_by; by auto
               | left; by split
               | match goal with
                 | Hparse : dp_parse (Some _) = inl _ |- _ =>
                     apply dp_parse_raise in Hparse
                       as [[[=] _]|(s' & [= <-] & Hnone & ->)];
                     do 4 right; left; eexists; by repeat split
                 end
               | do 5 right; do 2 eexists; by repeat split ].
Qed.

End TcxRaises.

(** ** When the TCX assembler goes through *)

Lemma Forall2_exists_l {A B} (P : A -> B -> Prop) (l : list A) (l' : list B) :
  Forall2 P l l' -> Forall (fun x => exists y, P x y) l.
Proof. induction 1; constructor; eauto. Qed.

Section TcxRuns.
Context `{Coercions}.
Context (etree_parse : string -> exc Element).
Import ParseTcx.

Lemma point_body_tagged (n : Z) (pts pts' : list (gmap string pyval))
    (point : Element) :
  point_body n pts point = ret pts' ->
  (has_position point = false /\ pts' = pts)
  \/ (has_position point = true
      /\ exists d, get_tcx_point_data point = ret (Some d)
                   /\ pts' = pts ++ [<["lap" := PInt n]> d]).
Proof.
  unfold point_body, has_position. intros Hrun.
  apply bind_inr in Hrun as (r & Hr & Hrun).
  destruct (find "ns:Position" NAMESPACES point) as [pos|] eqn:Hpos.
  - right. split; [reflexivity|].
    destruct (point_some point r) as (d & -> & _); [by eexists | assumption |].
    destruct (record_truthy point d Hr) as [_ Ht]. rewrite Ht in Hrun.
    injection Hrun as <-. by exists d.
  - left. split; [reflexivity|].
    rewrite point_none in Hr by assumption. injection Hr as <-.
    cbn in Hrun. by injection Hrun as <-.
Qed.

Lemma points_loop_tagged (n : Z) (points : list Element)
    (pts pts' : list (gmap string pyval)) :
  for_each (point_body n) points pts = ret pts' ->
  exists ds,
    Forall2 (fun point d => get_tcx_point_data point = ret (Some d))
      (List.filter has_position points) ds
    /\ pts' = pts ++ map (fun d => <["lap" := PInt n]> d) ds.
Proof.
  revert pts. induction points as [|p points IH]; intros pts Hrun;
    cbn [for_each] in Hrun.
  - injection Hrun as <-. exists []. split; [constructor|].
    by rewrite app_nil_r.
  - apply bind_inr in Hrun as (pts1 & Hbody & Hrun).
    apply IH in Hrun as (ds & Hds & ->).
    apply point_body_tagged in Hbody as [[Hpos ->]|(Hpos & d & Hd & ->)];
      cbn [List.filter]; rewrite Hpos.
    + by exists ds.
    + exists (d :: ds). split; [by constructor|].
      by rewrite <- app_assoc.
Qed.

Lemma laps_loop_tagged (laps : list Element) (st st' : loop_state) :
  for_each lap_body laps st = ret st' ->
  exists groups,
    Forall2 lap_point_records laps groups
    /\ points_data st' = points_data st ++ tag_laps (lap_no st) groups.
Proof.
  revert st. induction laps as [|lap laps IH]; intros st Hrun;
    cbn [for_each] in Hrun.
  - injection Hrun as <-. exists []. split; [constructor|].
    by rewrite app_nil_r.
  - apply bind_inr in Hrun as (st1 & Hbody & Hrun).
    apply IH in Hrun as (groups & Hgroups & ->).
    unfold lap_body in Hbody.
    apply bind_inr in Hbody as (d & _ & Hbody).
    unfold track_points in *.
    destruct (find "ns:Track" NAMESPACES lap) as [track|] eqn:Htrack;
      [|discriminate].
    apply bind_inr in Hbody as (trackpoints & [= <-] & Hbody).
    apply bind_inr in Hbody as (pts & Hpts & [= <-]).
    apply points_loop_tagged in Hpts as (g & Hg & ->).
    exists (g :: groups). split.
    + constructor; [|exact Hgroups]. unfold lap_point_records, track_points.
      by rewrite Htrack.
    + cbn [points_data lap_no tag_laps]. by rewrite <- app_assoc.
Qed.

(** X8. In a successful run the rows of the point table are, lap after
    lap in the order of the [Lap] elements and point after point within a
    lap, the records of the track points that have a position, and the
    [lap] cell of each is the number of its lap, counted from 1. *)
Theorem tcx_points_carry_their_lap (fname : string)
    (laps_df points_df : DataFrame) :
  get_dataframes etree_parse fname = ret (laps_df, points_df) ->
  exists activity groups,
    first_activity etree_parse fname = ret activity
    /\ Forall2 lap_point_records (findall "ns:Lap" NAMESPACES activity) groups
    /\ rows points_df
       = map (fun d => map (cell d) POINTS_COLUMN_NAMES) (tag_laps 1 groups).
Proof.
  intros Hrun.
  apply get_dataframes_run in Hrun as (activity & st & Hact & Hloop & _ & ->).
  apply laps_loop_tagged in Hloop as (groups & Hgroups & Hpts).
  exists activity, groups. split; [exact Hact|]. split; [exact Hgroups|].
  cbn [DataFrame_of rows]. by rewrite Hpts.
Qed.

Lemma points_loop_total (n : Z) (points : list Element)
    (pts : list (gmap string pyval)) :
  forallb (fun point => negb (has_position point) || point_readable point)
    points = true ->
  returns (for_each (point_body n) points pts) = true.
Proof.
  revert pts. induction points as [|p points IH]; intros pts; [reflexivity|].
  cbn [forallb for_each]. rewrite andb_true_iff. intros [Hp Hpoints].
  unfold point_body at 1.
  destruct (has_position p) eqn:Hpos; cbn [negb orb] in Hp.
  - apply point_readable_run in Hp as [d Hd]. rewrite Hd. cbn [bind ret].
    destruct (record_truthy p d Hd) as [_ ->]. cbn [bind ret]. by apply IH.
  - rewrite point_none; [cbn; by apply IH|].
    unfold has_position in Hpos.
    by destruct (find "ns:Position" NAMESPACES p).
Qed.

Lemma laps_loop_total (laps : list Element) (st : loop_state) :
  forallb lap_processable laps = true ->
  returns (for_each lap_body laps st) = true.
Proof.
  revert st. induction laps as [|lap laps IH]; intros st; [reflexivity|].
  cbn [forallb for_each]. rewrite andb_true_iff. intros [Hlap Hlaps].
  unfold lap_processable in Hlap. rewrite !andb_true_iff in Hlap.
  destruct Hlap as [[Hread Htrack] Hpoints].
  apply lap_readable_run in Hread as [d Hd].
  unfold lap_body at 1. rewrite Hd. cbn [bind ret].
  unfold has_track, track_points in *.
  destruct (find "ns:Track" NAMESPACES lap) as [track|]; [|discriminate].
  cbn [findall_in bind ret].
  apply (points_loop_total (lap_no st) _ (points_data st)) in Hpoints.
  apply returns_inr in Hpoints as [pts ->]. cbn [bind]. by apply IH.
Qed.

Lemma laps_loop_processable (laps : list Element) (st st' : loop_state) :
  for_each lap_body laps st = ret st' -> forallb lap_processable laps = true.
Proof.
  revert st. induction laps as [|lap laps IH]; intros st Hrun; [reflexivity|].
  cbn [for_each] in Hrun. apply bind_inr in Hrun as (st1 & Hbody & Hrun).
  cbn [forallb]. rewrite (IH _ Hrun), andb_true_r.
  apply lap_body_run in Hbody as (Htrack & _ & (d & Hd & _) & recs & _ & Hrecs).
  unfold lap_processable. rewrite Htrack, (lap_run_readable lap d Hd).
  cbn [andb]. apply forallb_forall. intros p Hp.
  destruct (has_position p) eqn:Hpos; [cbn [negb orb] | reflexivity].
  apply Forall2_exists_l in Hrecs. rewrite Forall_forall in Hrecs.
  destruct (Hrecs p) as (rec & d' & n & Hd' & _).
  - apply list_elem_of_In, filter_In. by split.
  - by eapply point_run_readable.
Qed.

(** X7. [get_dataframes] returns its two tables exactly when the file
    parses, the root has an [Activities] child with a first child, and
    every [Lap] of that activity is readable, has a [Track], and has only
    readable track points among those of its track that have a position.
    In every other case it raises: no table is returned for a part of the
    file. *)
Theorem tcx_run_goes_through_iff (fname : string) :
  returns (get_dataframes etree_parse fname) = true
  <-> exists activity,
        first_activity etree_parse fname = ret activity
        /\ activity_processable activity = true.
Proof.
  split.
  - intros Hrun. apply returns_inr in Hrun as [[laps_df points_df] Hrun].
    apply get_dataframes_run in Hrun as (activity & st & Hact & Hloop & _).
    exists activity. split; [exact Hact|]. by eapply laps_loop_processable.
  - intros (activity & Hact & Hok). rewrite get_dataframes_unfold, Hact.
    cbn [bind ret].
    apply (laps_loop_total _ initial_state) in Hok.
    by apply returns_inr in Hok as [st ->].
Qed.

(** X9. What [get_dataframes] raises before it reaches the laps: the
    failure of opening or parsing the file as it is, [TypeError] when the
    root has no [Activities] child, [IndexError] when [Activities] has no
    child. *)
Theorem tcx_missing_activity_raises (fname : string) :
  (forall e, etree_parse fname = raise e ->
     get_dataframes etree_parse fname = raise e)
  /\ (forall root, etree_parse fname = ret root ->
        find "ns:Activities" NAMESPACES root = None ->
        get_dataframes etree_parse fname = raise TypeError)
  /\ (forall root activities, etree_parse fname = ret root ->
        find "ns:Activities" NAMESPACES root = Some activities ->
        children activities = [] ->
        get_dataframes etree_parse fname = raise IndexError).
Proof.
  unfold get_dataframes. repeat split.
  - by intros e ->.
  - intros root -> Hfind. cbn [bind ret]. by rewrite Hfind.
  - intros root activities -> Hfind Hchildren. cbn [bind ret].
    rewrite Hfind. cbn [first_child]. by rewrite Hchildren.
Qed.

(** X10. An activity without [Lap] children is no error: both tables
    come back without rows, the lap table indexed by [number], the point
    table with its eight columns. *)
Theorem tcx_activity_without_laps (fname : string) (activity : Element) :
  first_activity etree_parse fname = ret activity ->
  findall "ns:Lap" NAMESPACES activity = [] ->
  get_dataframes etree_parse fname
  = ret ({| index_name := Some "number"; index := [];
            columns := ["start_time"; "distance"; "total_time"; "max_speed";
                        "max_hr"; "avg_hr"];
            rows := [] |},
         {| index_name := None; index := [];
            columns := ["latitude"; "longitude"; "elevation"; "time";
                        "heart_rate"; "cadence"; "speed"; "lap"];
            rows := [] |}).
Proof.
  intros Hact Hlaps. rewrite get_dataframes_unfold, Hact. cbn [bind ret].
  rewrite Hlaps. reflexivity.
Qed.

End TcxRuns.

(** ** The GPX extractor and assembler, case by case *)

Section GpxRuns.
Context `{Coercions}.
Context (open_file : string -> option string).
Context (gpxpy_parse : string -> option ParseGpx.GPX).
Import ParseGpx.

Lemma guarded_read_raise (r : option Element) (key : string)
    (data : gmap string pyval) (e : exn) :
  try_except_AttributeError
    (do t <- text_of r;
     do n <- coerce int_of_string t;
     ret (<[key := PInt n]> data)) data = inl e ->
  exists tag_elem, r = Some tag_elem
    /\ ((text tag_elem = None /\ e = TypeError)
        \/ (exists s, text tag_elem = Some s /\ int_of_string s = None
                      /\ e = ValueError)).
Proof.
  destruct r as [tag_elem|]; [|discriminate]. cbn [text_of bind ret].
  unfold coerce. destruct (text tag_elem) as [s|] eqn:Ht.
  - destruct (int_of_string s) eqn:Hs; [discriminate|].
    intros [= <-]. exists tag_elem. split; [reflexivity|]. right. by exists s.
  - intros [= <-]. exists tag_elem. split; [reflexivity|]. by left.
Qed.

(** X11. What the GPX point extractor raises. A point without an
    extension block raises [IndexError]. A heart-rate tag that is there
    but has no text raises [TypeError], one whose text [int] rejects
    raises [ValueError]: only a missing tag is passed over. Whatever the
    extractor raises is one of these three, caused by the extension list
    or by a heart-rate or cadence tag that is present; [AttributeError]
    never leaves it. *)
Theorem gpx_point_raises_only (point : GPXTrackPoint) :
  (extensions point = [] -> get_gpx_point_data point = raise IndexError)
  /\ (forall elem rest tag_elem,
        extensions point = elem :: rest ->
        find "garmin_tpe:hr" NAMESPACES elem = Some tag_elem ->
        (text tag_elem = None ->
           get_gpx_point_data point = raise TypeError)
        /\ (forall s, text tag_elem = Some s -> int_of_string s = None ->
              get_gpx_point_data point = raise ValueError))
  /\ forall e, get_gpx_point_data point = raise e ->
       (extensions point = [] /\ e = IndexError)
       \/ exists elem rest tag_elem,
            extensions point = elem :: rest
            /\ (find "garmin_tpe:hr" NAMESPACES elem = Some tag_elem
                \/ find "garmin_tpe:cad" NAMESPACES elem = Some tag_elem)
            /\ ((text tag_elem = None /\ e = TypeError)
                \/ (exists s, text tag_elem = Some s
                              /\ int_of_string s = None /\ e = ValueError)).
Proof.
  split; [|split].
  - intros Hext. unfold get_gpx_point_data. by rewrite Hext.
  - intros elem rest tag_elem Hext Hfind.
    unfold get_gpx_point_data, py_int. rewrite Hext.
    cbn [first_item bind ret]. rewrite Hfind. cbn [text_of bind ret].
    split.
    + by intros ->.
    + intros s -> Hs. cbn [coerce]. by rewrite Hs.
  - unfold get_gpx_point_data, py_int. intros e Hrun.
    destruct (extensions point) as [|elem rest];
      [left; split; [reflexivity | by injection Hrun] | right].
    cbn [first_item bind ret] in Hrun.
    match type of Hrun with bind ?m _ = _ => destruct m as [e1|d1] eqn:Hhr end;
      cbn [bind] in Hrun.
    + injection Hrun as ->.
      apply guarded_read_raise in Hhr as (tag_elem & Htag & Hcause).
      exists elem, rest, tag_elem. split; [reflexivity|]. by split; [left|].
    + match type of Hrun with bind ?m _ = _ => destruct m as [e2|d2] eqn:Hcad end;
        cbn [bind] in Hrun; [|discriminate].
      injection Hrun as ->.
      apply guarded_read_raise in Hcad as (tag_elem & Htag & Hcause).
      exists elem, rest, tag_elem. split; [reflexivity|]. by split; [right|].
Qed.

Lemma guarded_read_value (r : option Element) (key : string)
    (data d' : gmap string pyval) :
  try_except_AttributeError
    (do t <- text_of r;
     do n <- coerce int_of_string t;
     ret (<[key := PInt n]> data)) data = inr d' ->
  (r = None /\ d' = data)
  \/ exists tag_elem n,
       r = Some tag_elem
       /\ coerce int_of_string (text tag_elem) = inr n
       /\ d' = <[key := PInt n]> data.
Proof.
  destruct r as [tag_elem|]; cbn [text_of bind ret raise
                                  try_except_AttributeError].
  - destruct (coerce int_of_string (text tag_elem)) as [e|n] eqn:Hn;
      cbn [bind ret try_except_AttributeError].
    + apply coerce_raise in Hn as [[_ ->]|(s & _ & _ & ->)]; discriminate.
    + intros [= <-]. right. by exists tag_elem, n.
  - intros [= <-]. by left.
Qed.

(** X12. In the record of a GPX point the heart_rate (cadence) key is
    there exactly when the first extension block has the tag, and its
    value is [int] of the tag's text; further extension blocks are not
    looked at. The record has no key outside the six declared columns. *)
Theorem gpx_point_record_tags (point : GPXTrackPoint) (elem : Element)
    (rest : list Element) (d : gmap string pyval) :
  extensions point = elem :: rest ->
  get_gpx_point_data point = ret d ->
  (is_Some (d !! "heart_rate")
   <-> is_Some (find "garmin_tpe:hr" NAMESPACES elem))
  /\ (forall tag_elem, find "garmin_tpe:hr" NAMESPACES elem = Some tag_elem ->
        exists n, py_int (text tag_elem) = ret n
                  /\ d !! "heart_rate" = Some (PInt n))
  /\ (is_Some (d !! "cadence")
      <-> is_Some (find "garmin_tpe:cad" NAMESPACES elem))
  /\ (forall tag_elem, find "garmin_tpe:cad" NAMESPACES elem = Some tag_elem ->
        exists n, py_int (text tag_elem) = ret n
                  /\ d !! "cadence" = Some (PInt n))
  /\ forall k, is_Some (d !! k) -> k ∈ COLUMN_NAMES.
Proof.
  unfold get_gpx_point_data, py_int. intros Hext Hrun. rewrite Hext in Hrun.
  cbn [first_item bind ret] in Hrun.
  apply bind_inr in Hrun as (d1 & Hhr & Hrun).
  apply bind_inr in Hrun as (d2 & Hcad & [= <-]).
  apply guarded_read_value in Hhr as [[-> ->]|(hr & n & -> & Hn & ->)];
    apply guarded_read_value in Hcad as [[-> ->]|(cad & m & -> & Hm & ->)].
  all: split; [key_fact|].
  all: split; [intros ? Hfind;
               first [ discriminate Hfind
                     | injection Hfind as <-; eexists;
                       split; [eassumption | by simplify_map_eq] ]|].
  all: split; [key_fact|].
  all: split; [intros ? Hfind;
               first [ discriminate Hfind
                     | injection Hfind as <-; eexists;
                       split; [eassumption | by simplify_map_eq] ]|].
  all: unfold COLUMN_NAMES; keys_in_list.
Qed.

Lemma comprehension_total {A B} (f : A -> exc B) (ok : A -> bool)
    (xs : list A) :
  (forall x, ok x = true -> returns (f x) = true) ->
  forallb ok xs = true -> returns (comprehension f xs) = true.
Proof.
  intros Hok. induction xs as [|x xs IH]; [reflexivity|].
  cbn [forallb comprehension]. rewrite andb_true_iff. intros [Hx Hxs].
  apply Hok, returns_inr in Hx as [y ->]. cbn [bind].
  apply IH, returns_inr in Hxs as [ys ->]. reflexivity.
Qed.

(** X13. [get_dataframe_from_gpx] returns a table exactly when the file
    opens, gpxpy takes it, there is a first track with a first segment,
    and every point of that segment is readable; one point that is not
    makes the whole call raise. The table then has one row per point of
    the segment: no point is left out. *)
Theorem gpx_run_goes_through_iff (fname : string) :
  (returns (get_dataframe_from_gpx open_file gpxpy_parse fname) = true
   <-> exists segment,
         first_segment open_file gpxpy_parse fname = ret segment
         /\ segment_readable segment = true)
  /\ forall df,
       get_dataframe_from_gpx open_file gpxpy_parse fname = ret df ->
       exists segment,
         first_segment open_file gpxpy_parse fname = ret segment
         /\ length (rows df) = length (points segment).
Proof.
  split; [split|].
  - intros Hrun. apply returns_inr in Hrun as [df Hrun].
    apply get_dataframe_from_gpx_run in Hrun as (segment & data & Hseg & Hdata & _).
    exists segment. split; [exact Hseg|].
    unfold segment_readable. apply forallb_forall. intros p Hp.
    apply Forall2_exists_l in Hdata. rewrite Forall_forall in Hdata.
    apply gpx_point_readable_iff, Hdata. by apply list_elem_of_In.
  - intros (segment & Hseg & Hok).
    rewrite get_dataframe_from_gpx_unfold, Hseg. cbn [bind ret].
    apply (comprehension_total get_gpx_point_data) in Hok.
    + by apply returns_inr in Hok as [data ->].
    + intros p Hp. by apply gpx_point_readable_run in Hp as [d ->].
  - intros df Hrun.
    apply get_dataframe_from_gpx_run in Hrun as (segment & data & Hseg & Hdata & ->).
    exists segment. split; [exact Hseg|].
    cbn [DataFrame_of rows]. rewrite length_map.
    symmetry. by eapply Forall2_length.
Qed.

End GpxRuns.

(** ** Records and columns *)

Section TcxCells.
Context `{Coercions}.
Import ParseTcx.

(** X14. Every key of a lap record, once numbered, is one of the
    declared lap columns, and every key of a point record, once tagged
    with its lap, is one of the declared point columns: building the
    tables drops no field that was extracted. *)
Theorem tcx_records_fit_columns :
  (forall lap d n k,
     get_tcx_lap_data lap = ret d ->
     is_Some (<["number" := PInt n]> d !! k) -> k ∈ LAPS_COLUMN_NAMES)
  /\ (forall point d n k,
        get_tcx_point_data point = ret (Some d) ->
        is_Some (<["lap" := PInt n]> d !! k) -> k ∈ POINTS_COLUMN_NAMES).
Proof.
  split.
  - intros lap d n k Hrun. revert k. unfold get_tcx_lap_data in Hrun.
    exc_inv. all: unfold LAPS_COLUMN_NAMES; keys_in_list.
  - intros point d n k Hrun. revert k. unfold get_tcx_point_data in Hrun.
    exc_inv. all: unfold POINTS_COLUMN_NAMES; keys_in_list.
Qed.

(** Settle whether a cell of a [d] built by inserts is null. *)
Ltac null_fact :=
  unfold cell; simplify_map_eq; cbn [is_null];
  first [ reflexivity
        | split; [ intros Hnull; first [ discriminate Hnull
                                       | reflexivity
                                       | by left
                                       | right; by eexists
                                       | by eexists ]
                 | first [ intros [Hnone|(x' & [= <-] & Hnan)];
                           first [ discriminate Hnone
                                 | exact Hnan
                                 | reflexivity ]
                         | intros (x' & [= <-] & Hnan); exact Hnan
                         | intros Hnone; first [ discriminate Hnone
                                               | reflexivity ] ] ] ].

(** X15. In the row of a track point the time and lap cells are never
    null, and the heart_rate and cadence cells are null exactly when the
    element they are read from is not found. A float cell is null exactly
    when its element is not found (elevation, speed) or the float that was
    read is NaN (latitude, longitude, elevation, speed). *)
Theorem tcx_point_null_cells (point : Element) (d : gmap string pyval) (n : Z) :
  get_tcx_point_data point = ret (Some d) ->
  let rec := <["lap" := PInt n]> d in
  is_null (cell rec "time") = false
  /\ is_null (cell rec "lap") = false
  /\ (is_null (cell rec "heart_rate") = true
      <-> find "ns:HeartRateBpm" NAMESPACES point = None)
  /\ (is_null (cell rec "cadence") = true
      <-> find "ns:Cadence" NAMESPACES point = None)
  /\ (is_null (cell rec "latitude") = true
      <-> exists x, d !! "latitude" = Some (PFloat x) /\ float_is_nan x = true)
  /\ (is_null (cell rec "longitude") = true
      <-> exists x, d !! "longitude" = Some (PFloat x) /\ float_is_nan x = true)
  /\ (is_null (cell rec "elevation") = true
      <-> find "ns:AltitudeMeters" NAMESPACES point = None
          \/ exists x, d !! "elevation" = Some (PFloat x)
                       /\ float_is_nan x = true)
  /\ (is_null (cell rec "speed") = true
      <-> find ".//ns3:Speed" NAMESPACES point = None
          \/ exists x, d !! "speed" = Some (PFloat x) /\ float_is_nan x = true).
Proof.
  intros Hrun. cbv zeta. unfold get_tcx_point_data in Hrun. exc_inv.
  all: do 7 (split; [null_fact|]); null_fact.
Qed.

(** X16. In the row of a lap the start_time cell is never null, and the
    total_time cell is null exactly when [TotalTimeSeconds] is not found.
    A float cell (distance, max_speed, max_hr, avg_hr) is null exactly
    when its element is not found or the float that was read is NaN. *)
Theorem tcx_lap_null_cells (lap : Element) (d : gmap string pyval) :
  get_tcx_lap_data lap = ret d ->
  is_null (cell d "start_time") = false
  /\ (is_null (cell d "total_time") = true
      <-> find "ns:TotalTimeSeconds" NAMESPACES lap = None)
  /\ (is_null (cell d "distance") = true
      <-> find "ns:DistanceMeters" NAMESPACES lap = None
          \/ exists x, d !! "distance" = Some (PFloat x)
                       /\ float_is_nan x = true)
  /\ (is_null (cell d "max_speed") = true
      <-> find "ns:MaximumSpeed" NAMESPACES lap = None
          \/ exists x, d !! "max_speed" = Some (PFloat x)
                       /\ float_is_nan x = true)
  /\ (is_null (cell d "max_hr") = true
      <-> find "ns:MaximumHeartRateBpm" NAMESPACES lap = None
          \/ exists x, d !! "max_hr" = Some (PFloat x)
                       /\ float_is_nan x = true)
  /\ (is_null (cell d "avg_hr") = true
      <-> find "ns:AverageHeartRateBpm" NAMESPACES lap = None
          \/ exists x, d !! "avg_hr" = Some (PFloat x)
                       /\ float_is_nan x = true).
Proof.
  unfold get_tcx_lap_data. intros Hrun. exc_inv.
  all: do 5 (split; [null_fact|]); null_fact.
Qed.

(** X17. The speed of a track point is read from a [Speed] element of
    the activity-extension namespace anywhere below the point, at any
    depth; cadence and the heart-rate wrapper are read only from children
    of the point itself. *)
Theorem tcx_speed_at_any_depth (point : Element) (d : gmap string pyval) :
  get_tcx_point_data point = ret (Some d) ->
  (is_Some (d !! "speed")
   <-> exists c, c ∈ descendants point
         /\ tag c = "{http://www.garmin.com/xmlschemas/ActivityExtension/v2}Speed")
  /\ (is_Some (d !! "cadence")
      <-> exists c, c ∈ children point
            /\ tag c = "{http://www.garmin.com/xmlschemas/TrainingCenterDatabase/v2}Cadence")
  /\ (is_Some (d !! "heart_rate")
      <-> exists c, c ∈ children point
            /\ tag c = "{http://www.garmin.com/xmlschemas/TrainingCenterDatabase/v2}HeartRateBpm").
Proof.
  intros Hrun.
  pose proof (find_descendant_is_Some "ns3:Speed" point) as Hspeed.
  pose proof (find_child_is_Some "ns:Cadence" point eq_refl) as Hcad.
  pose proof (find_child_is_Some "ns:HeartRateBpm" point eq_refl) as Hhr.
  change (clark NAMESPACES "ns3:Speed")
    with "{http://www.garmin.com/xmlschemas/ActivityExtension/v2}Speed"
    in Hspeed.
  change (clark NAMESPACES "ns:Cadence")
    with "{http://www.garmin.com/xmlschemas/TrainingCenterDatabase/v2}Cadence"
    in Hcad.
  change (clark NAMESPACES "ns:HeartRateBpm")
    with "{http://www.garmin.com/xmlschemas/TrainingCenterDatabase/v2}HeartRateBpm"
    in Hhr.
  change (".//" +:+ "ns3:Speed") with ".//ns3:Speed" in Hspeed.
  rewrite <- Hspeed, <- Hcad, <- Hhr. clear Hspeed Hcad Hhr.
  unfold get_tcx_point_data in Hrun. exc_inv.
  all: do 2 (split; [key_fact|]); key_fact.
Qed.

End TcxCells.

(** * The further properties on the sample documents *)

Section FurtherOnSamples.
Import Samples EdgeSamples.
#[local] Existing Instance decimal_runtime.

Lemma tcx_lap_record_keys_witness :
  exists d, ParseTcx.get_tcx_lap_data lap_a = ret d
            /\ is_Some (d !! "start_time") /\ is_Some (d !! "distance")
            /\ ~ is_Some (d !! "max_hr").
Proof.
  destruct (lap_readable_run lap_a) as [d Hd]; [reflexivity|].
  destruct (tcx_lap_record_keys lap_a d Hd)
    as (Hstart & Hdist & _ & _ & Hmax & _).
  exists d. split; [exact Hd|]. split; [exact Hstart|].
  split; [apply Hdist; eexists; reflexivity|].
  intros Hhr. apply Hmax in Hhr. destruct Hhr as [w Hw]. discriminate Hw.
Defined.

Lemma tcx_lap_record_values_witness :
  exists d, ParseTcx.get_tcx_lap_data lap_a = ret d
            /\ d !! "distance"
               = Some (PFloat {| mantissa := 160934; places := 2 |}).
Proof.
  destruct (lap_readable_run lap_a) as [d Hd]; [reflexivity|].
  destruct (tcx_lap_record_values lap_a d Hd) as (_ & Hdist & _).
  exists d. split; [exact Hd|].
  destruct (Hdist (leaf (tcx "DistanceMeters") "1609.34") eq_refl)
    as (x & Hx & Hlookup).
  rewrite Hlookup. injection Hx as <-. reflexivity.
Defined.

Lemma tcx_point_record_keys_witness :
  exists d, ParseTcx.get_tcx_point_data full_point = ret (Some d)
            /\ is_Some (d !! "speed") /\ ~ is_Some (d !! "lap").
Proof.
  destruct (point_readable_run full_point) as [d Hd]; [reflexivity|].
  destruct (tcx_point_record_keys full_point d Hd)
    as (_ & _ & _ & _ & _ & _ & Hspeed & Hkeys).
  exists d. split; [exact Hd|].
  split; [apply Hspeed; eexists; reflexivity|].
  intros Hlap. apply Hkeys in Hlap.
  repeat (apply elem_of_cons in Hlap as [Hlap|Hlap]; [discriminate Hlap|]).
  by apply elem_of_nil in Hlap.
Defined.

Lemma tcx_point_record_values_witness :
  exists d, ParseTcx.get_tcx_point_data full_point = ret (Some d)
            /\ d !! "heart_rate" = Some (PInt 141).
Proof.
  destruct (point_readable_run full_point) as [d Hd]; [reflexivity|].
  destruct (tcx_point_record_values full_point d Hd)
    as (pos & _ & _ & _ & _ & _ & Hhr & _).
  exists d. split; [exact Hd|].
  destruct (Hhr (node (tcx "HeartRateBpm") [leaf (tcx "Value") "141"]) eq_refl)
    as (v & n & Hv & Hn & Hlookup).
  rewrite Hlookup. injection Hv as <-. injection Hn as <-. reflexivity.
Defined.

Lemma tcx_point_raises_only_witness :
  ParseTcx.get_tcx_point_data point_without_time = raise AttributeError
  /\ (AttributeError = AttributeError \/ AttributeError = TypeError
      \/ AttributeError = ValueError
      \/ exists time s,
           find "ns:Time" ParseTcx.NAMESPACES point_without_time = Some time
           /\ text time = Some s
           /\ datetime_of_string s = None
           /\ AttributeError = datetime_error s).
Proof.
  split; [reflexivity|].
  apply (tcx_point_raises_only point_without_time). reflexivity.
Defined.

Lemma tcx_lap_raises_only_witness :
  ParseTcx.get_tcx_lap_data lap_without_start = raise KeyError.
Proof.
  destruct (tcx_lap_raises_only lap_without_start) as [Hkey _].
  apply Hkey. reflexivity.
Defined.

Lemma tcx_run_goes_through_iff_witness :
  returns (ParseTcx.get_dataframes tcx_files "two_laps.tcx") = true
  /\ returns (ParseTcx.get_dataframes tcx_files "trackless.tcx") = false.
Proof.
  split.
  - apply tcx_run_goes_through_iff.
    exists (node (tcx "Activity") [lap_a; lap_b]). split; reflexivity.
  - destruct (returns (ParseTcx.get_dataframes tcx_files "trackless.tcx"))
      eqn:Hrun; [|reflexivity].
    apply tcx_run_goes_through_iff in Hrun as (activity & Hact & Hok).
    assert (ParseTcx.first_activity tcx_files "trackless.tcx"
            = ret (node (tcx "Activity") [lap_b; lap_without_track])) as Hfirst
      by reflexivity.
    rewrite Hfirst in Hact. injection Hact as <-.
    assert (ParseTcx.activity_processable
              (node (tcx "Activity") [lap_b; lap_without_track]) = false)
      as Hfalse by reflexivity.
    rewrite Hfalse in Hok. discriminate Hok.
Defined.

Lemma tcx_points_carry_their_lap_witness :
  exists laps_df points_df,
    ParseTcx.get_dataframes tcx_files "two_laps.tcx" = ret (laps_df, points_df)
    /\ map (fun r => nth 7 r PNone) (rows points_df) = [PInt 1; PInt 2; PInt 2].
Proof.
  destruct (returns_inr (ParseTcx.get_dataframes tcx_files "two_laps.tcx"))
    as [[laps_df points_df] Hrun]; [reflexivity|].
  exists laps_df, points_df. split; [exact Hrun|].
  destruct (tcx_points_carry_their_lap tcx_files _ _ _ Hrun)
    as (activity & groups & Hact & Hgroups & Hrows).
  assert (ParseTcx.first_activity tcx_files "two_laps.tcx"
          = ret (node (tcx "Activity") [lap_a; lap_b])) as Hfirst
    by reflexivity.
  rewrite Hfirst in Hact. injection Hact as <-.
  rewrite Hrows. clear Hrows Hrun.
  apply Forall2_cons_inv_l in Hgroups as (g1 & groups1 & Hg1 & Hgroups & ->).
  apply Forall2_cons_inv_l in Hgroups as (g2 & groups2 & Hg2 & Hgroups & ->).
  apply Forall2_nil_inv_l in Hgroups as ->.
  apply Forall2_length in Hg1, Hg2.
  assert (length (List.filter ParseTcx.has_position
                    (ParseTcx.track_points lap_a)) = 1%nat) as Hone
    by reflexivity.
  assert (length (List.filter ParseTcx.has_position
                    (ParseTcx.track_points lap_b)) = 2%nat) as Htwo
    by reflexivity.
  rewrite Hone in Hg1. rewrite Htwo in Hg2.
  destruct g1 as [|d1 [|? ?]]; try discriminate Hg1.
  destruct g2 as [|d2 [|d3 [|? ?]]]; try discriminate Hg2.
  unfold ParseTcx.POINTS_COLUMN_NAMES.
  cbn [ParseTcx.tag_laps map app nth]. unfold cell.
  rewrite !lookup_insert_eq. reflexivity.
Defined.

Lemma tcx_missing_activity_raises_witness :
  ParseTcx.get_dataframes edge_files "not_xml.tcx" = raise ParseError
  /\ ParseTcx.get_dataframes edge_files "no_activities.tcx" = raise TypeError
  /\ ParseTcx.get_dataframes edge_files "empty_activities.tcx"
     = raise IndexError.
Proof.
  split; [|split].
  - destruct (tcx_missing_activity_raises edge_files "not_xml.tcx")
      as (Hparse & _).
    apply Hparse. reflexivity.
  - destruct (tcx_missing_activity_raises edge_files "no_activities.tcx")
      as (_ & Hnone & _).
    apply (Hnone root_without_activities); reflexivity.
  - destruct (tcx_missing_activity_raises edge_files "empty_activities.tcx")
      as (_ & _ & Hempty).
    apply (Hempty root_with_empty_activities (node (tcx "Activities") []));
      reflexivity.
Defined.

Lemma tcx_activity_without_laps_witness :
  returns (ParseTcx.get_dataframes edge_files "no_laps.tcx") = true.
Proof.
  rewrite (tcx_activity_without_laps edge_files "no_laps.tcx"
             (node (tcx "Activity") [])); reflexivity.
Defined.

Lemma gpx_point_raises_only_witness :
  ParseGpx.get_gpx_point_data gpx_point_without_extension = raise IndexError
  /\ ParseGpx.get_gpx_point_data (gpx_point extension_empty_hr) = raise TypeError
  /\ ParseGpx.get_gpx_point_data (gpx_point extension_bad_hr) = raise ValueError.
Proof.
  split; [|split].
  - destruct (gpx_point_raises_only gpx_point_without_extension) as (Hnone & _).
    apply Hnone. reflexivity.
  - destruct (gpx_point_raises_only (gpx_point extension_empty_hr))
      as (_ & Htag & _).
    destruct (Htag extension_empty_hr [] (node (tpe "hr") []) eq_refl eq_refl)
      as [Hempty _].
    apply Hempty. reflexivity.
  - destruct (gpx_point_raises_only (gpx_point extension_bad_hr))
      as (_ & Htag & _).
    destruct (Htag extension_bad_hr [] (leaf (tpe "hr") "141.5") eq_refl eq_refl)
      as [_ Hbad].
    apply (Hbad "141.5"); reflexivity.
Defined.

Lemma gpx_point_record_tags_witness :
  exists d, ParseGpx.get_gpx_point_data (gpx_point extension_full) = ret d
            /\ d !! "heart_rate" = Some (PInt 141)
            /\ d !! "cadence" = Some (PInt 86).
Proof.
  destruct (gpx_point_readable_run (gpx_point extension_full)) as [d Hd];
    [reflexivity|].
  destruct (gpx_point_record_tags (gpx_point extension_full) extension_full []
              d eq_refl Hd) as (_ & Hhr & _ & Hcad & _).
  exists d. split; [exact Hd|]. split.
  - destruct (Hhr (leaf (tpe "hr") "141") eq_refl) as (n & Hn & ->).
    injection Hn as <-. reflexivity.
  - destruct (Hcad (leaf (tpe "cad") "86") eq_refl) as (n & Hn & ->).
    injection Hn as <-. reflexivity.
Defined.

Lemma gpx_run_goes_through_iff_witness :
  exists df, ParseGpx.get_dataframe_from_gpx gpx_open gpx_parse "run.gpx" = ret df
             /\ length (rows df) = 2%nat.
Proof.
  destruct (gpx_run_goes_through_iff gpx_open gpx_parse "run.gpx")
    as [[_ Hgoes] Hrows].
  destruct (returns_inr
              (ParseGpx.get_dataframe_from_gpx gpx_open gpx_parse "run.gpx"))
    as [df Hrun].
  - apply Hgoes.
    exists (ParseGpx.Build_GPXTrackSegment
              [gpx_point extension_full; gpx_point extension_cad_only]).
    split; reflexivity.
  - exists df. split; [exact Hrun|].
    destruct (Hrows df Hrun) as (segment & Hseg & ->).
    assert (ParseGpx.first_segment gpx_open gpx_parse "run.gpx"
            = ret (ParseGpx.Build_GPXTrackSegment
                     [gpx_point extension_full; gpx_point extension_cad_only]))
      as Hfirst by reflexivity.
    rewrite Hfirst in Hseg. injection Hseg as <-. reflexivity.
Defined.

Lemma tcx_records_fit_columns_witness :
  exists d, ParseTcx.get_tcx_point_data full_point = ret (Some d)
            /\ forall k, is_Some (<["lap" := PInt 1]> d !! k) ->
                 k ∈ ParseTcx.POINTS_COLUMN_NAMES.
Proof.
  destruct (point_readable_run full_point) as [d Hd]; [reflexivity|].
  exists d. split; [exact Hd|]. intros k.
  destruct tcx_records_fit_columns as [_ Hpoint].
  exact (Hpoint full_point d 1 k Hd).
Defined.

Lemma tcx_point_null_cells_witness :
  exists d, ParseTcx.get_tcx_point_data bare_point = ret (Some d)
            /\ is_null (cell (<["lap" := PInt 2]> d) "elevation") = true
            /\ is_null (cell (<["lap" := PInt 2]> d) "time") = false.
Proof.
  destruct (point_readable_run bare_point) as [d Hd]; [reflexivity|].
  destruct (tcx_point_null_cells bare_point d 2 Hd)
    as (Htime & _ & _ & _ & _ & _ & Hele & _).
  exists d. split; [exact Hd|].
  split; [apply Hele; left; reflexivity | exact Htime].
Defined.

Lemma tcx_lap_null_cells_witness :
  exists d, ParseTcx.get_tcx_lap_data lap_b = ret d
            /\ is_null (cell d "total_time") = true
            /\ is_null (cell d "start_time") = false.
Proof.
  destruct (lap_readable_run lap_b) as [d Hd]; [reflexivity|].
  destruct (tcx_lap_null_cells lap_b d Hd) as (Hstart & Htotal & _).
  exists d. split; [exact Hd|].
  split; [apply Htotal; reflexivity | exact Hstart].
Defined.

Lemma tcx_speed_at_any_depth_witness :
  exists d, ParseTcx.get_tcx_point_data full_point = ret (Some d)
            /\ is_Some (d !! "speed").
Proof.
  destruct (point_readable_run full_point) as [d Hd]; [reflexivity|].
  destruct (tcx_speed_at_any_depth full_point d Hd) as (Hspeed & _).
  exists d. split; [exact Hd|]. apply Hspeed.
  exists (leaf (ext "Speed") "3.1"). split; [|reflexivity].
  apply (list_elem_of_lookup_2 _ 10%nat). reflexivity.
Defined.

End FurtherOnSamples.
